(** * lastfm.py: a client of the Last.fm web API

    The client issues HTTP GET requests, decodes the JSON body, raises
    [LastFMError] on the two failure conditions it recognises and reshapes
    the decoded body into output records.  This file embeds the module
    shallowly: decoded JSON and the output records are values of [json],
    Python exceptions are the [Raise] branch of [res], and the awaits on
    the HTTP session are steps of the monad [io], which also records every
    request that was issued. *)

From Stdlib Require Import ZArith String Ascii List Floats DecimalString DecimalN.
From stdpp Require Import gmap strings list fin_maps.

Set Warnings "-register-all".

(** ** The fragment of the Python runtime the client relies on *)

Module Py.

(** What [response.json()] produces, and what the client's methods return:
    [None], [bool], [int], [float], [str], [list] and [dict] with [str]
    keys.  A [str] is the sequence of its code points, each below 256. *)
Inductive json : Type :=
  | JNull
  | JBool (b : bool)
  | JInt (n : Z)
  | JFloat (f : float)
  | JString (s : string)
  | JList (l : list json)
  | JObject (m : gmap string json).

(** The exceptions that can leave the client.  [TransportError] stands for
    whatever the HTTP layer or the JSON decoder raises. *)
Inductive exn : Type :=
  | LastFMError (msg : string)
  | KeyError
  | IndexError
  | TypeError
  | ValueError
  | AttributeError
  | OverflowError
  | TransportError.

Inductive res (A : Type) : Type :=
  | Ok (a : A)
  | Raise (e : exn).
Arguments Ok {A} a.
Arguments Raise {A} e.

#[global] Instance res_ret : MRet res := fun A a => Ok a.
#[global] Instance res_bind : MBind res :=
  fun A B f r => match r with Ok a => f a | Raise e => Raise e end.
#[global] Instance res_fmap : FMap res :=
  fun A B f r => match r with Ok a => Ok (f a) | Raise e => Raise e end.

Definition is_ok {A} (r : res A) : bool :=
  match r with Ok _ => true | Raise _ => false end.

(** [bool(v)] *)
Definition truthy (v : json) : bool :=
  match v with
  | JNull => false
  | JBool b => b
  | JInt n => negb (n =? 0)%Z
  | JFloat f => negb (PrimFloat.eqb f 0%float)
  | JString s => negb (String.eqb s "")
  | JList l => negb (Nat.eqb (length l) 0)
  | JObject m => negb (Nat.eqb (size m) 0)
  end.

(** [a or b] and [not a] *)
Definition or_ (a b : json) : json := if truthy a then a else b.
Definition not_ (a : json) : json := JBool (negb (truthy a)).

(** [l[i]] on a sequence: a negative index counts from the end. *)
Definition seq_index {A} (l : list A) (i : Z) : option A :=
  let j := if (i <? 0)%Z then (i + Z.of_nat (length l))%Z else i in
  if (j <? 0)%Z then None else l !! Z.to_nat j.

(** [v[k]] for a [str] key [k] *)
Definition getitem (v : json) (k : string) : res json :=
  match v with
  | JObject m => match m !! k with Some x => Ok x | None => Raise KeyError end
  | _ => Raise TypeError
  end.

(** [v[i]] for an [int] index [i] *)
Definition getindex (v : json) (i : Z) : res json :=
  match v with
  | JList l => match seq_index l i with Some x => Ok x | None => Raise IndexError end
  | JString s =>
      match seq_index (list_ascii_of_string s) i with
      | Some c => Ok (JString (String c EmptyString))
      | None => Raise IndexError
      end
  | JObject _ => Raise KeyError
  | _ => Raise TypeError
  end.

(** [v.get(k)]: only a [dict] has the method. *)
Definition get (v : json) (k : string) : res json :=
  match v with
  | JObject m => Ok (default JNull (m !! k))
  | _ => Raise AttributeError
  end.

(** [sub in s] on strings *)
Fixpoint substring_of (sub s : string) : bool :=
  String.prefix sub s ||
  match s with
  | EmptyString => false
  | String _ s' => substring_of sub s'
  end.

(** [k in v] for a [str] [k]: key membership on a [dict], element
    membership on a [list], substring test on a [str]. *)
Definition contains (k : string) (v : json) : res bool :=
  match v with
  | JObject m => Ok (bool_decide (is_Some (m !! k)))
  | JList l =>
      Ok (existsb (fun x => match x with JString s => String.eqb s k | _ => false end) l)
  | JString s => Ok (substring_of k s)
  | _ => Raise TypeError
  end.

(** [v == s] for a [str] [s] *)
Definition eq_str (v : json) (s : string) : bool :=
  match v with JString t => String.eqb t s | _ => false end.

(** [isinstance(v, dict)] *)
Definition is_dict (v : json) : bool :=
  match v with JObject _ => true | _ => false end.

(** [for x in v]: a [dict] yields its keys. *)
Definition iter (v : json) : res (list json) :=
  match v with
  | JList l => Ok l
  | JObject m => Ok (JString <$> (map_to_list m).*1)
  | JString s => Ok ((fun c => JString (String c EmptyString)) <$> list_ascii_of_string s)
  | _ => Raise TypeError
  end.

(** [s.replace(old, new)] for a non-empty [old]: occurrences are replaced
    from the left and do not overlap.  [skip] counts the characters of a
    match still to be dropped. *)
Fixpoint replace_from (old new : string) (skip : nat) (s : string) : string :=
  match s with
  | EmptyString => EmptyString
  | String c s' =>
      match skip with
      | S k => replace_from old new k s'
      | O =>
          if String.prefix old s
          then new +:+ replace_from old new (String.length old - 1) s'
          else String c (replace_from old new 0 s')
      end
  end.

Definition replace (v : json) (old new : string) : res json :=
  match v with
  | JString s => Ok (JString (replace_from old new 0 s))
  | _ => Raise AttributeError
  end.

(** *** [int(v)] *)

(** The whitespace [int] strips: the ASCII white space of the C locale and,
    above 127, the code points Unicode classifies as white space. *)
Definition is_space (c : ascii) : bool :=
  let n := nat_of_ascii c in
  ((9 <=? n) && (n <=? 13) || (n =? 32) || (n =? 133) || (n =? 160))%nat.

Definition digit_of (c : ascii) : option Z :=
  let n := nat_of_ascii c in
  if ((48 <=? n) && (n <=? 57))%nat then Some (Z.of_nat (n - 48)) else None.

Fixpoint skip_spaces (s : string) : string :=
  match s with
  | String c s' => if is_space c then skip_spaces s' else s
  | EmptyString => s
  end.

(** The digits after the first one; a single underscore may separate two
    digits.  Returns the value, the number of digits and the unread rest. *)
Fixpoint int_digits (acc : Z) (count : nat) (s : string) : option (Z * nat * string) :=
  match s with
  | String "_" (String c s') =>
      match digit_of c with
      | Some d => int_digits (10 * acc + d)%Z (S count) s'
      | None => None
      end
  | String c s' =>
      match digit_of c with
      | Some d => int_digits (10 * acc + d)%Z (S count) s'
      | None => Some (acc, count, s)
      end
  | EmptyString => Some (acc, count, s)
  end.

(** CPython's default for [sys.int_info.default_max_str_digits]. *)
Definition int_max_str_digits : nat := 4300.

Definition int_of_string (s : string) : res Z :=
  let s1 := skip_spaces s in
  let '(neg, s2) :=
    match s1 with
    | String "-" r => (true, r)
    | String "+" r => (false, r)
    | _ => (false, s1)
    end in
  match s2 with
  | String c s3 =>
      match digit_of c with
      | Some d =>
          match int_digits d 1 s3 with
          | Some (v, count, rest) =>
              if negb (String.eqb (skip_spaces rest) "") then Raise ValueError
              else if (int_max_str_digits <? count)%nat then Raise ValueError
              else Ok (if neg then (- v)%Z else v)
          | None => Raise ValueError
          end
      | None => Raise ValueError
      end
  | EmptyString => Raise ValueError
  end.

(** Truncation of a float towards zero. *)
Definition int_of_float (f : float) : res Z :=
  match Prim2SF f with
  | S754_zero _ => Ok 0%Z
  | S754_infinity _ => Raise OverflowError
  | S754_nan => Raise ValueError
  | S754_finite s m e =>
      let a := if (0 <=? e)%Z then (Z.pos m * 2 ^ e)%Z else (Z.pos m / 2 ^ (- e))%Z in
      Ok (if s then (- a)%Z else a)
  end.

Definition int (v : json) : res Z :=
  match v with
  | JString s => int_of_string s
  | JInt n => Ok n
  | JBool b => Ok (if b then 1 else 0)%Z
  | JFloat f => int_of_float f
  | _ => Raise TypeError
  end.

(** The integer a float is equal to, if any: a [dict] with [int] keys is
    indexed by such a float as by the integer. *)
Definition float_integral (f : float) : option Z :=
  match Prim2SF f with
  | S754_zero _ => Some 0%Z
  | S754_finite s m e =>
      if (0 <=? e)%Z then Some (if s then (- (Z.pos m * 2 ^ e))%Z else (Z.pos m * 2 ^ e)%Z)
      else if (Z.pos m mod 2 ^ (- e) =? 0)%Z
           then Some (if s then (- (Z.pos m / 2 ^ (- e)))%Z else (Z.pos m / 2 ^ (- e))%Z)
           else None
  | _ => None
  end.

(** [d[v]] on a [dict] whose keys are [int]s *)
Definition getitem_int_keys (d : gmap Z string) (v : json) : res string :=
  let at_ (n : Z) := match d !! n with Some x => Ok x | None => Raise KeyError end in
  match v with
  | JInt n => at_ n
  | JBool b => at_ (if b then 1 else 0)%Z
  | JFloat f => match float_integral f with Some n => at_ n | None => Raise KeyError end
  | JNull | JString _ => Raise KeyError
  | JList _ | JObject _ => Raise TypeError
  end.

End Py.
Import Py.

(** ** Statements and awaits *)

(** [x ← e; k]: the statement [e] is evaluated, and [k] runs unless [e]
    raised. *)
Definition and_then {A B : Type} (r : res A) (k : A -> res B) : res B :=
  match r with
  | Ok a => k a
  | Raise e => Raise e
  end.

(** A computation that awaits the session: the requests it sent, as pairs
    of URL and query parameters in the order of issue, and how it ended. *)
Record io (A : Type) : Type := IO {
  sent : list (string * gmap string json);
  result : res A
}.
Arguments IO {A} sent result.
Arguments sent {A} i.
Arguments result {A} i.

(** [x ← await m; k] *)
Definition await {A B : Type} (m : io A) (k : A -> io B) : io B :=
  match result m with
  | Ok a => IO (sent m ++ sent (k a)) (result (k a))
  | Raise e => IO (sent m) (Raise e)
  end.

(** Statements that await nothing. *)
Definition lift {A} (r : res A) : io A := IO [] r.

Declare Scope py_scope.
Notation "x ← y ; z" := (and_then y (fun x => z))
  (at level 20, y at level 100, z at level 200, only parsing) : py_scope.
Notation "x ← 'await' y ; z" := (await y (fun x => z))
  (at level 20, y at level 100, z at level 200, only parsing) : py_scope.
Notation "x ← 'pure' y ; z" := (await (lift y) (fun x => z))
  (at level 20, y at level 100, z at level 200, only parsing) : py_scope.
#[local] Open Scope py_scope.

(** ** The client *)

Definition LastFMurl : string := "https://ws.audioscrobbler.com/2.0/".

Definition LASTFM_ERRORS : gmap Z string :=
  list_to_map [
    (6, "User/artist not found");
    (8, "Backend issue");
    (17, "Users privacy settings blocking this request");
    (26, "Access for your account has been suspended, please contact Last.fm");
    (13, "Invalid method signature supplied");
    (16, "There was a temporary error processing your request. Please try again");
    (29, "Rate limit exceeded");
    (10, "Invalid API key");
    (11, "Service Offline - This service is temporarily offline. Try again later.");
    (3, "Invalid method - No method with that name in this package");
    (4, "Authentication Failed - You do not have permissions to access the service");
    (5, "Invalid format - This service doesn't exist in that format");
    (7, "Invalid parameters - Your request is missing a required parameter");
    (9, "Invalid resource specified");
    (15, "This token has not been authorized");
    (18, "There was a temporary error processing your request. Please try again");
    (19, "You must be logged in to do that");
    (20, "This operation requires authentication");
    (21, "You do not have permissions to access the service");
    (22, "There was a temporary error processing your request. Please try again");
    (23, "Operation failed - Most likely the backend service failed. Please try again.");
    (24, "Invalid session key - Please re-authenticate")
  ]%Z.

(** The state of a [LastFM] object and of the process around it: what the
    session answers to a GET, already decoded by [response.json()], the
    environment [getenv] reads, and the timing of the event loop and the
    network.  Of the timing only one thing is observable: when several
    tasks awaited together raise, which of them raises first.
    [raised_first] answers that, given the exceptions of the failing tasks
    in the order of the tasks, by the position of the first one in time. *)
Record LastFM : Type := {
  session_get : string -> gmap string json -> res json;
  environ : gmap string string;
  raised_first : list exn -> nat
}.

(** The exception a task ended with, if it raised. *)
Definition exception {A} (r : res A) : option exn :=
  match r with
  | Ok _ => None
  | Raise e => Some e
  end.

(** [await asyncio.gather] over the list [tasks]: every task is started, so the requests
    of all of them are sent.  When all return, their values come back in
    the order of the tasks.  When some raise, the exception that is raised
    first in time is propagated: the one [raised_first] points at among
    the exceptions of the failing tasks (the earliest task's, should it
    point past them). *)
Definition gather {A} (self : LastFM) (tasks : list (io A)) : io (list A) :=
  IO (mjoin (sent <$> tasks))
     (match mapM result tasks with
      | Ok values => Ok values
      | Raise earliest =>
          let raised := omap (fun task => exception (result task)) tasks in
          Raise (default earliest (raised !! raised_first self raised))
      end).

Definition getenv (self : LastFM) (name : string) : json :=
  match environ self !! name with
  | Some s => JString s
  | None => JNull
  end.

(** [await self.session.get(url=..., params=...)] followed by [.json()] *)
Definition session_get_json (self : LastFM) (url : string)
    (params : gmap string json) : io json :=
  IO [(url, params)] (session_get self url params).

(** Subscripting reads as in the source: [v.["k"]] is [v["k"]] and
    [v.[#i]] is [v[i]]; a subscript of a failed expression fails alike. *)
Definition ok_json (v : json) : res json := Ok v.
Coercion ok_json : json >-> res.

Definition sub (r : res json) (k : string) : res json := v ← r; getitem v k.
Definition idx (r : res json) (i : Z) : res json := v ← r; getindex v i.
Notation "r .[ k ]" := (sub r k) (at level 1, left associativity, format "r .[ k ]").
Notation "r .[# i ]" := (idx r i%Z) (at level 1, left associativity, format "r .[# i ]").

(** [e or None] *)
Definition or_None (r : res json) : res json := v ← r; Ok (or_ v JNull).

(** [int(e)] as an output value *)
Definition int_ (r : res json) : res json := v ← r; n ← int v; Ok (JInt n).

(** [e.replace(old, new)] *)
Definition replace_ (r : res json) (old new : string) : res json :=
  v ← r; replace v old new.

(** [[f(x) for x in e]] *)
Definition comprehension (f : json -> res json) (r : res json) : res json :=
  v ← r; l ← iter v; out ← mapM f l; Ok (JList out).

(** The element [{"name": x["name"], "url": x["url"]}] of several
    comprehensions. *)
Definition name_url (x : json) : res json :=
  name ← x.["name"];
  url ← x.["url"];
  Ok (JObject {[ "name" := name; "url" := url ]}).

(** The [params=] argument of the GET: the request's own entries over the
    API key and the format selector. *)
Definition params (self : LastFM) (req : gmap string json) : gmap string json :=
  req ∪ {[ "api_key" := getenv self "LASTFM_APIKEY"; "format" := JString "json" ]}.

Definition request (self : LastFM) (req : gmap string json)
    (paramater : option string) : io json :=
  data ← await session_get_json self LastFMurl (params self req);
  lift (
    has_errors ← contains "errors" data;
    if has_errors : bool then
      code ← get data "error";
      msg ← getitem_int_keys LASTFM_ERRORS code;
      Raise (LastFMError ("Error: " +:+ msg))
    else
      match paramater with
      | Some p =>
          if truthy (JString p) then
            field ← get data p;
            if negb (truthy field)
            then Raise (LastFMError ("Error: " +:+ p +:+ " not found"))
            else Ok data
          else Ok data
      | None => Ok data
      end).

(** The statements of [request] after the await, as a function of the
    decoded body: [result_request] below relates the two. *)
Definition check (data : json) (paramater : option string) : res json :=
  has_errors ← contains "errors" data;
  if has_errors : bool then
    code ← get data "error";
    msg ← getitem_int_keys LASTFM_ERRORS code;
    Raise (LastFMError ("Error: " +:+ msg))
  else
    match paramater with
    | Some p =>
        if truthy (JString p) then
          field ← get data p;
          if negb (truthy field)
          then Raise (LastFMError ("Error: " +:+ p +:+ " not found"))
          else Ok data
        else Ok data
    | None => Ok data
    end.

Definition profile (self : LastFM) (username : string) : io json :=
  response ← await request self
    {[ "method" := JString "user.getInfo"; "username" := JString username ]} None;
  lift (
    url ← response.["user"].["url"];
    name ← response.["user"].["name"];
    government ← or_None response.["user"].["realname"];
    avatar ← or_None (replace_ response.["user"].["image"].[#-1].["#text"] ".png" ".gif");
    scrobbles ← int_ response.["user"].["playcount"];
    artists ← int_ response.["user"].["artist_count"];
    albums ← int_ response.["user"].["album_count"];
    tracks ← int_ response.["user"].["track_count"];
    registered ← response.["user"].["registered"].["#text"];
    country ← or_None response.["user"].["country"];
    age ← int_ response.["user"].["age"];
    type ← response.["user"].["type"];
    Ok (JObject {[
      "url" := url;
      "username" := name;
      "government" := government;
      "avatar" := avatar;
      "library" := JObject {[
        "scrobbles" := scrobbles;
        "artists" := artists;
        "albums" := albums;
        "tracks" := tracks ]};
      "meta" := JObject {[
        "registered" := registered;
        "country" := country;
        "age" := age;
        "pro" := JBool (eq_str type "subscriber") ]} ]})).

Definition now_playing (self : LastFM) (username : string) : io json :=
  tracks ← await request self
    {[ "method" := JString "user.getRecentTracks";
       "username" := JString username;
       "limit" := JInt 1 ]}
    (Some "recenttracks");
  tasks ← pure (
    track ← tracks.["recenttracks"].["track"].[#0];
    _track ← tracks.["recenttracks"].["track"].[#0];
    let tasks := [] in
    let tasks := tasks ++ [
      request self
        {[ "method" := JString "user.getInfo"; "username" := JString username ]}
        (Some "user") ] in
    artist ← track.["artist"].["#text"];
    name ← track.["name"];
    let tasks := tasks ++ [
      request self
        {[ "method" := JString "track.getInfo";
           "username" := JString username;
           "artist" := artist;
           "track" := name ]}
        (Some "track") ] in
    artist ← track.["artist"].["#text"];
    let tasks := tasks ++ [
      request self
        {[ "method" := JString "artist.getInfo";
           "username" := JString username;
           "artist" := artist ]}
        (Some "artist") ] in
    album_text ← track.["album"].["#text"];
    tasks ←
      (if truthy album_text then
         artist ← track.["artist"].["#text"];
         album ← track.["album"].["#text"];
         Ok (tasks ++ [
           request self
             {[ "method" := JString "album.getInfo";
                "username" := JString username;
                "artist" := artist;
                "album" := album ]}
             (Some "album") ])
       else Ok tasks);
    Ok (_track, tasks));
  let '(_track, tasks) := tasks in
  results ← await gather self tasks;
  lift (
    match results with
    | [user; track; artist; album] =>
        track ← track.["track"];
        user ← user.["user"];
        artist ← artist.["artist"];
        url ← track.["url"];
        name ← track.["name"];
        image_text ← (last_image ← _track.["image"].[#-1]; get last_image "#text");
        image ←
          (if truthy image_text then
             image_url ← _track.["image"].[#-1].["#text"];
             Ok (JObject {[ "url" := image_url ]})
           else Ok JNull);
        plays ← int_ track.["userplaycount"];
        date ← get _track "date";
        artist_url ← artist.["url"];
        artist_name ← artist.["name"];
        artist_image ← or_None artist.["image"].[#-1].["#text"];
        artist_plays ← int_ artist.["stats"].["userplaycount"];
        let response : gmap string json := {[
          "url" := url;
          "name" := name;
          "image" := image;
          "plays" := plays;
          "playing" := not_ (JBool (truthy date));
          "artist" := JObject {[
            "url" := artist_url;
            "name" := artist_name;
            "image" := artist_image;
            "plays" := artist_plays ]} ]} in
        response ←
          (if truthy album then
             album ← album.["album"];
             album_url ← album.["url"];
             album_name ← album.["name"];
             album_image ← or_None album.["image"].[#-1].["#text"];
             album_plays ← int_ album.["userplaycount"];
             album_tracks ← get album "tracks";
             listed ←
               (if truthy album_tracks then
                  track ← album.["tracks"].["track"];
                  Ok (negb (is_dict track))
                else Ok false);
             tracks ←
               (if listed : bool then
                  comprehension
                    (fun _track : json =>
                       url ← _track.["url"];
                       name ← _track.["name"];
                       Ok (JObject {[ "url" := url; "name" := name ]}))
                    album.["tracks"].["track"]
                else Ok (JList []));
             Ok (<[ "album" := JObject {[
                      "url" := album_url;
                      "name" := album_name;
                      "image" := album_image;
                      "plays" := album_plays;
                      "tracks" := tracks ]} ]> response)
           else Ok response);
        user_url ← user.["url"];
        user_name ← user.["name"];
        full_name ← or_None user.["realname"];
        avatar ← or_None (replace_ user.["image"].[#-1].["#text"] ".png" ".gif");
        scrobbles ← int_ user.["playcount"];
        artists ← int_ user.["artist_count"];
        albums ← int_ user.["album_count"];
        tracks ← int_ user.["track_count"];
        registered ← user.["registered"].["#text"];
        country ←
          (c ← user.["country"];
           if negb (eq_str c "None") then user.["country"] else Ok JNull);
        age ← int_ user.["age"];
        type ← user.["type"];
        Ok (JObject (<[ "user" := JObject {[
              "url" := user_url;
              "username" := user_name;
              "full_name" := full_name;
              "avatar" := avatar;
              "library" := JObject {[
                "scrobbles" := scrobbles;
                "artists" := artists;
                "albums" := albums;
                "tracks" := tracks ]};
              "meta" := JObject {[
                "registered" := registered;
                "country" := country;
                "age" := age;
                "pro" := JBool (eq_str type "subscriber") ]} ]} ]> response))
    | _ => Raise ValueError
    end).

Definition get_artist (self : LastFM) (artist : string) : io json :=
  response ← await request self
    {[ "method" := JString "artist.getInfo"; "artist" := JString artist ]}
    (Some "artist");
  lift (
    url ← response.["artist"].["url"];
    name ← response.["artist"].["name"];
    image ← or_None response.["artist"].["image"].[#-1].["#text"];
    plays ← int_ response.["artist"].["stats"].["userplaycount"];
    listeners ← int_ response.["artist"].["stats"].["listeners"];
    playcount ← int_ response.["artist"].["stats"].["playcount"];
    bio ← response.["artist"].["bio"].["content"];
    tags ← comprehension name_url response.["artist"].["tags"].["tag"];
    similar ← comprehension name_url response.["artist"].["similar"].["artist"];
    tracks ← comprehension name_url response.["artist"].["toptracks"].["track"];
    albums ← comprehension name_url response.["artist"].["topalbums"].["album"];
    Ok (JObject {[
      "url" := url;
      "name" := name;
      "image" := image;
      "plays" := plays;
      "listeners" := listeners;
      "playcount" := playcount;
      "bio" := bio;
      "tags" := tags;
      "similar" := similar;
      "tracks" := tracks;
      "albums" := albums ]})).

Definition recent_tracks (self : LastFM) (username : string) (limit : Z) : io json :=
  response ← await request self
    {[ "method" := JString "user.getRecentTracks";
       "username" := JString username;
       "limit" := JInt limit;
       "autoscorrect" := JInt 1 ]}
    (Some "recenttracks");
  lift (
    comprehension
      (fun track : json =>
         url ← track.["url"];
         name ← track.["name"];
         image_text ← (last_image ← track.["image"].[#-1]; get last_image "#text");
         image ←
           (if truthy image_text then
              image_url ← track.["image"].[#-1].["#text"];
              Ok (JObject {[ "url" := image_url ]})
            else Ok JNull);
         plays ← int_ track.["userplaycount"];
         date ← get track "date";
         artist_url ← track.["artist"].["url"];
         artist_name ← track.["artist"].["#text"];
         artist_image ← or_None track.["artist"].["image"].[#-1].["#text"];
         artist_plays ← int_ track.["artist"].["stats"].["userplaycount"];
         Ok (JObject {[
           "url" := url;
           "name" := name;
           "image" := image;
           "plays" := plays;
           "playing" := not_ (JBool (truthy date));
           "artist" := JObject {[
             "url" := artist_url;
             "name" := artist_name;
             "image" := artist_image;
             "plays" := artist_plays ]} ]}))
      response.["recenttracks"].["track"]).

(** The first [def get_album] of the class body (lines 254 to 284).  The
    class body binds the name a second time further down, so this
    function is not the method [get_album] of a [LastFM] object. *)
Definition get_album_first (self : LastFM) (artist album : string) : io json :=
  response ← await request self
    {[ "method" := JString "album.getInfo";
       "artist" := JString artist;
       "album" := JString album ]}
    (Some "album");
  lift (
    url ← response.["album"].["url"];
    name ← response.["album"].["name"];
    image ← or_None response.["album"].["image"].[#-1].["#text"];
    plays ← int_ response.["album"].["userplaycount"];
    artist_url ← response.["album"].["artist"].["url"];
    artist_name ← response.["album"].["artist"].["name"];
    tracks ←
      comprehension
        (fun track : json =>
           url ← track.["url"];
           name ← track.["name"];
           duration ← int_ track.["duration"];
           Ok (JObject {[ "url" := url; "name" := name; "duration" := duration ]}))
        response.["album"].["tracks"].["track"];
    tags ← comprehension name_url response.["album"].["tags"].["tag"];
    Ok (JObject {[
      "url" := url;
      "name" := name;
      "image" := image;
      "plays" := plays;
      "artist" := JObject {[ "url" := artist_url; "name" := artist_name ]};
      "tracks" := tracks;
      "tags" := tags ]})).

Definition top_artists (self : LastFM) (username period : string) (limit : Z) : io json :=
  response ← await request self
    {[ "method" := JString "user.getTopArtists";
       "username" := JString username;
       "period" := JString period;
       "limit" := JInt limit ]}
    (Some "topartists");
  lift (
    comprehension
      (fun artist : json =>
         url ← artist.["url"];
         name ← artist.["name"];
         image ← or_None artist.["image"].[#-1].["#text"];
         plays ← int_ artist.["playcount"];
         Ok (JObject {[ "url" := url; "name" := name; "image" := image; "plays" := plays ]}))
      response.["topartists"].["artist"]).

Definition top_tracks (self : LastFM) (username period : string) (limit : Z) : io json :=
  response ← await request self
    {[ "method" := JString "user.getTopTracks";
       "username" := JString username;
       "period" := JString period;
       "limit" := JInt limit ]}
    (Some "toptracks");
  lift (
    comprehension
      (fun track : json =>
         url ← track.["url"];
         name ← track.["name"];
         image ← or_None track.["image"].[#-1].["#text"];
         plays ← int_ track.["playcount"];
         artist_url ← track.["artist"].["url"];
         artist_name ← track.["artist"].["name"];
         Ok (JObject {[
           "url" := url;
           "name" := name;
           "image" := image;
           "plays" := plays;
           "artist" := JObject {[ "url" := artist_url; "name" := artist_name ]} ]}))
      response.["toptracks"].["track"]).

Definition top_albums (self : LastFM) (username period : string) (limit : Z) : io json :=
  response ← await request self
    {[ "method" := JString "user.getTopAlbums";
       "username" := JString username;
       "period" := JString period;
       "limit" := JInt limit ]}
    (Some "topalbums");
  lift (
    comprehension
      (fun album : json =>
         url ← album.["url"];
         name ← album.["name"];
         image ← or_None album.["image"].[#-1].["#text"];
         plays ← int_ album.["playcount"];
         artist_url ← album.["artist"].["url"];
         artist_name ← album.["artist"].["name"];
         Ok (JObject {[
           "url" := url;
           "name" := name;
           "image" := image;
           "plays" := plays;
           "artist" := JObject {[ "url" := artist_url; "name" := artist_name ]} ]}))
      response.["topalbums"].["album"]).

(** The second [def get_album] (lines 354 to 384): the binding in force,
    hence the method a caller of [get_album] runs. *)
Definition get_album (self : LastFM) (username album : string) : io json :=
  response ← await request self
    {[ "method" := JString "album.getInfo";
       "username" := JString username;
       "album" := JString album ]}
    (Some "album");
  lift (
    url ← response.["album"].["url"];
    name ← response.["album"].["name"];
    image ← or_None response.["album"].["image"].[#-1].["#text"];
    plays ← int_ response.["album"].["userplaycount"];
    artist_url ← response.["album"].["artist"].["url"];
    artist_name ← response.["album"].["artist"].["name"];
    tracks ←
      comprehension
        (fun track : json =>
           url ← track.["url"];
           name ← track.["name"];
           duration ← int_ track.["duration"];
           Ok (JObject {[ "url" := url; "name" := name; "duration" := duration ]}))
        response.["album"].["tracks"].["track"];
    tags ← comprehension name_url response.["album"].["tags"].["tag"];
    Ok (JObject {[
      "url" := url;
      "name" := name;
      "image" := image;
      "plays" := plays;
      "artist" := JObject {[ "url" := artist_url; "name" := artist_name ]};
      "tracks" := tracks;
      "tags" := tags ]})).

Definition get_track (self : LastFM) (username artist track : string) : io json :=
  response ← await request self
    {[ "method" := JString "track.getInfo";
       "username" := JString username;
       "artist" := JString artist;
       "track" := JString track ]}
    (Some "track");
  lift (
    url ← response.["track"].["url"];
    name ← response.["track"].["name"];
    image ← or_None response.["track"].["image"].[#-1].["#text"];
    plays ← int_ response.["track"].["userplaycount"];
    artist_url ← response.["track"].["artist"].["url"];
    artist_name ← response.["track"].["artist"].["name"];
    album_url ← response.["track"].["album"].["url"];
    album_name ← response.["track"].["album"].["name"];
    tags ← comprehension name_url response.["track"].["toptags"].["tag"];
    Ok (JObject {[
      "url" := url;
      "name" := name;
      "image" := image;
      "plays" := plays;
      "artist" := JObject {[ "url" := artist_url; "name" := artist_name ]};
      "album" := JObject {[ "url" := album_url; "name" := album_name ]};
      "tags" := tags ]})).

Definition get_tag (self : LastFM) (tag : string) : io json :=
  response ← await request self
    {[ "method" := JString "tag.getInfo"; "tag" := JString tag ]}
    (Some "tag");
  lift (
    url ← response.["tag"].["url"];
    name ← response.["tag"].["name"];
    wiki ← response.["tag"].["wiki"].["content"];
    image ← or_None response.["tag"].["image"].[#-1].["#text"];
    reach ← int_ response.["tag"].["reach"];
    total ← int_ response.["tag"].["total"];
    top_artists ← comprehension name_url response.["tag"].["topartists"].["artist"];
    top_albums ← comprehension name_url response.["tag"].["topalbums"].["album"];
    top_tracks ← comprehension name_url response.["tag"].["toptracks"].["track"];
    Ok (JObject {[
      "url" := url;
      "name" := name;
      "wiki" := wiki;
      "image" := image;
      "reach" := reach;
      "total" := total;
      "top_artists" := top_artists;
      "top_albums" := top_albums;
      "top_tracks" := top_tracks ]})).

Definition library_artists (self : LastFM) (username period : string) (limit : Z) : io json :=
  response ← await request self
    {[ "method" := JString "user.getTopArtists";
       "username" := JString username;
       "period" := JString period;
       "limit" := JInt limit ]}
    (Some "topartists");
  lift (
    comprehension
      (fun artist : json =>
         url ← artist.["url"];
         name ← artist.["name"];
         image ← or_None artist.["image"].[#-1].["#text"];
         plays ← int_ artist.["playcount"];
         Ok (JObject {[ "url" := url; "name" := name; "image" := image; "plays" := plays ]}))
      response.["topartists"].["artist"]).

Definition library_tracks (self : LastFM) (username period : string) (limit : Z) : io json :=
  response ← await request self
    {[ "method" := JString "user.getTopTracks";
       "username" := JString username;
       "period" := JString period;
       "limit" := JInt limit ]}
    (Some "toptracks");
  lift (
    comprehension
      (fun track : json =>
         url ← track.["url"];
         name ← track.["name"];
         image ← or_None track.["image"].[#-1].["#text"];
         plays ← int_ track.["playcount"];
         artist_url ← track.["artist"].["url"];
         artist_name ← track.["artist"].["name"];
         Ok (JObject {[
           "url" := url;
           "name" := name;
           "image" := image;
           "plays" := plays;
           "artist" := JObject {[ "url" := artist_url; "name" := artist_name ]} ]}))
      response.["toptracks"].["track"]).

Definition library_albums (self : LastFM) (username period : string) (limit : Z) : io json :=
  response ← await request self
    {[ "method" := JString "user.getTopAlbums";
       "username" := JString username;
       "period" := JString period;
       "limit" := JInt limit ]}
    (Some "topalbums");
  lift (
    comprehension
      (fun album : json =>
         url ← album.["url"];
         name ← album.["name"];
         image ← or_None album.["image"].[#-1].["#text"];
         plays ← int_ album.["playcount"];
         artist_url ← album.["artist"].["url"];
         artist_name ← album.["artist"].["name"];
         Ok (JObject {[
           "url" := url;
           "name" := name;
           "image" := image;
           "plays" := plays;
           "artist" := JObject {[ "url" := artist_url; "name" := artist_name ]} ]}))
      response.["topalbums"].["album"]).

Definition library_tags (self : LastFM) (username period : string) (limit : Z) : io json :=
  Response ← await request self
    {[ "method" := JString "user.getTopTags";
       "username" := JString username;
       "period" := JString period;
       "limit" := JInt limit ]}
    (Some "toptags");
  lift (comprehension name_url Response.["toptags"].["tag"]).

(** The default of the [limit] parameter of the list methods. *)
Definition default_limit : Z := 1000.

Definition library (self : LastFM) (username : string) : io json :=
  let tasks := [] in
  let tasks := tasks ++ [library_artists self username "overall" default_limit] in
  let tasks := tasks ++ [library_albums self username "overall" default_limit] in
  let tasks := tasks ++ [library_tracks self username "overall" default_limit] in
  let tasks := tasks ++ [library_tags self username "overall" default_limit] in
  results ← await gather self tasks;
  lift (
    match results with
    | [artists; albums; tracks; tags] =>
        Ok (JObject {[
          "artists" := artists;
          "albums" := albums;
          "tracks" := tracks;
          "tags" := tags ]})
    | _ => Raise ValueError
    end).

(** ** Canned upstreams

    Clients whose session answers from a fixed table, keyed by the
    [method] parameter of the request; they serve as concrete inputs. *)

Definition method_of (query : gmap string json) : string :=
  match query !! "method" with
  | Some (JString m) => m
  | _ => ""
  end.

Definition canned (routes : gmap string json) : LastFM :=
  {| session_get := fun _ query =>
       match routes !! method_of query with
       | Some body => Ok body
       | None => Raise TransportError
       end;
     environ := {[ "LASTFM_APIKEY" := "0123456789abcdef" ]};
     raised_first := fun _ => 0%nat |}.

(** A client whose session answers every request with [body]. *)
Definition answering (body : json) : LastFM :=
  {| session_get := fun _ _ => Ok body;
     environ := {[ "LASTFM_APIKEY" := "0123456789abcdef" ]};
     raised_first := fun _ => 0%nat |}.

(** The client [self] under another timing: of the tasks that fail
    together, the one at position [order raised] fails first. *)
Definition racing (order : list exn -> nat) (self : LastFM) : LastFM :=
  {| session_get := session_get self;
     environ := environ self;
     raised_first := order |}.

(** An image list of two sizes; the last entry has the URL [text]. *)
Definition images (text : string) : json :=
  JList [
    JObject {[ "#text" := JString "http://img/34.png"; "size" := JString "small" ]};
    JObject {[ "#text" := JString text; "size" := JString "extralarge" ]} ].

Definition user_body (realname country : string) : json :=
  JObject {[ "user" := JObject {[
    "url" := JString "http://last.fm/user/alice";
    "name" := JString "alice";
    "realname" := JString realname;
    "image" := images "http://x/y.png";
    "playcount" := JString "1200";
    "artist_count" := JString "30";
    "album_count" := JString "40";
    "track_count" := JString "500";
    "registered" := JObject {[ "#text" := JInt 1262304000; "unixtime" := JString "1262304000" ]};
    "country" := JString country;
    "age" := JString "0";
    "type" := JString "subscriber" ]} ]}.

(** A recent track of the band, on the album named [album]; [date] is the
    value of its [date] key, if it has one. *)
Definition recent_track (album : string) (date : option json) : json :=
  let track : gmap string json := {[
    "name" := JString "song";
    "url" := JString "http://last.fm/music/band/_/song";
    "artist" := JObject {[
      "#text" := JString "band";
      "url" := JString "http://last.fm/music/band";
      "image" := images "";
      "stats" := JObject {[ "userplaycount" := JString "9" ]} ]};
    "album" := JObject {[ "#text" := JString album ]};
    "image" := images "http://img/song.png";
    "userplaycount" := JString "7" ]} in
  JObject (match date with Some d => <[ "date" := d ]> track | None => track end).

Definition recent_body (album : string) (date : option json) : json :=
  JObject {[ "recenttracks" := JObject {[ "track" := JList [recent_track album date] ]} ]}.

Definition track_body : json :=
  JObject {[ "track" := JObject {[
    "url" := JString "http://last.fm/music/band/_/song";
    "name" := JString "song";
    "userplaycount" := JString "7" ]} ]}.

(** An [artist.getInfo] body whose [tags] member is [tags]. *)
Definition artist_body (tags : json) : json :=
  JObject {[ "artist" := JObject {[
    "url" := JString "http://last.fm/music/band";
    "name" := JString "band";
    "image" := images "http://img/band.png";
    "stats" := JObject {[
      "userplaycount" := JString "9";
      "listeners" := JString "1000";
      "playcount" := JString "20000" ]};
    "bio" := JObject {[ "content" := JString "A band." ]};
    "tags" := tags;
    "similar" := JObject {[ "artist" := JList [] ]};
    "toptracks" := JObject {[ "track" := JList [] ]};
    "topalbums" := JObject {[ "album" := JList [] ]} ]} ]}.

(** An [album.getInfo] body whose [tracks] member is [tracks]. *)
Definition album_body (tracks : json) : json :=
  JObject {[ "album" := JObject {[
    "url" := JString "http://last.fm/music/band/lp";
    "name" := JString "lp";
    "image" := images "";
    "userplaycount" := JString "5";
    "artist" := JObject {[ "url" := JString "http://last.fm/music/band"; "name" := JString "band" ]};
    "tracks" := tracks;
    "tags" := JObject {[ "tag" := JList [] ]} ]} ]}.

(** The upstream behind [now_playing] and [profile]. *)
Definition upstream (album : string) (date : option json) (realname country : string)
    (album_tracks : json) : LastFM :=
  canned {[
    "user.getRecentTracks" := recent_body album date;
    "user.getInfo" := user_body realname country;
    "track.getInfo" := track_body;
    "artist.getInfo" := artist_body (JObject {[ "tag" := JList [] ]});
    "album.getInfo" := album_body album_tracks ]}.

(** The last track was scrobbled in the past: it carries a [date]. *)
Definition scrobbled_upstream : LastFM :=
  upstream "lp" (Some (JObject {[ "uts" := JString "1262304000" ]})) "" ""
    (JObject {[ "track" := JList [] ]}).

(** The last track is being played: it carries no [date]. *)
Definition playing_upstream : LastFM :=
  upstream "lp" None "" "" (JObject {[ "track" := JList [] ]}).

Definition rock : json := JObject {[ "name" := JString "rock"; "url" := JString "u" ]}.
Definition indie : json := JObject {[ "name" := JString "indie"; "url" := JString "v" ]}.

(** Upstreams whose artist carries two tags in an array, and one tag as a
    single object. *)
Definition tagged_upstream : LastFM :=
  canned {[ "artist.getInfo" := artist_body (JObject {[ "tag" := JList [rock; indie] ]}) ]}.

Definition single_tag_upstream : LastFM :=
  canned {[ "artist.getInfo" := artist_body (JObject {[ "tag" := rock ]}) ]}.

(** An upstream whose album lists its only track as a single object. *)
Definition single_track_upstream : LastFM :=
  upstream "lp" None "" ""
    (JObject {[ "track" := JObject {[ "name" := JString "song";
                                      "url" := JString "http://last.fm/music/band/_/song" ]} ]}).

(** One entry of a [user.getTopArtists] body. *)
Definition top_artist (name playcount : string) : json :=
  JObject {[
    "url" := JString ("http://last.fm/music/" +:+ name);
    "name" := JString name;
    "image" := images "";
    "playcount" := JString playcount ]}.

(** The record [top_artists] is to return for that entry. *)
Definition artist_summary (name : string) (plays : Z) : json :=
  JObject {[
    "url" := JString ("http://last.fm/music/" +:+ name);
    "name" := JString name;
    "image" := JNull;
    "plays" := JInt plays ]}.

Definition top_artists_body : json :=
  JObject {[ "topartists" := JObject {[ "artist" := JList [
    top_artist "a" "123"; top_artist "b" "45"; top_artist "c" "45";
    top_artist "d" "7"; top_artist "e" "0" ] ]} ]}.

(** The decimal numeral of a natural number, as the Standard Library
    prints it. *)
Definition numeral (k : N) : string := NilEmpty.string_of_uint (N.to_uint k).



(** A client whose session cannot be reached: every GET raises. *)
Definition unreachable : LastFM :=
  {| session_get := fun _ _ => Raise TransportError;
     environ := ∅;
     raised_first := fun _ => 0%nat |}.

(** One entry of a [user.getTopTracks] or [user.getTopAlbums] body, by the
    band, and the record it is to be mapped to. *)
Definition top_item (name playcount : string) : json :=
  JObject {[
    "url" := JString ("http://last.fm/music/band/" +:+ name);
    "name" := JString name;
    "image" := images ("http://img/" +:+ name);
    "playcount" := JString playcount;
    "artist" := JObject {[
      "url" := JString "http://last.fm/music/band";
      "name" := JString "band";
      "mbid" := JString "" ]} ]}.

Definition item_summary (name : string) (plays : Z) : json :=
  JObject {[
    "url" := JString ("http://last.fm/music/band/" +:+ name);
    "name" := JString name;
    "image" := JString ("http://img/" +:+ name);
    "plays" := JInt plays;
    "artist" := JObject {[
      "url" := JString "http://last.fm/music/band";
      "name" := JString "band" ]} ]}.

Definition top_tracks_body : json :=
  JObject {[ "toptracks" := JObject {[ "track" := JList [
    top_item "song" "31"; top_item "tune" "4" ] ]} ]}.

Definition top_albums_body : json :=
  JObject {[ "topalbums" := JObject {[ "album" := JList [
    top_item "lp" "200"; top_item "ep" "12" ] ]} ]}.

(** An artist entry without a play count, and a top-artists body that has
    it between two complete entries. *)
Definition uncounted_artist : gmap string json :=
  {[ "url" := JString "http://last.fm/music/b";
     "name" := JString "b";
     "image" := images "" ]}.

Definition uncounted_artists_body : json :=
  JObject {[ "topartists" := JObject {[ "artist" := JList [
    top_artist "a" "123"; JObject uncounted_artist; top_artist "c" "45" ] ]} ]}.

(** The service's own error body, as it answers an unknown user. *)
Definition error_body : gmap string json :=
  {[ "error" := JInt 6; "message" := JString "User not found" ]}.

(** An album one of whose tracks has no duration. *)
Definition untimed_track : gmap string json :=
  {[ "name" := JString "song";
     "url" := JString "http://last.fm/music/band/_/song";
     "duration" := JNull ]}.

Definition untimed_album_upstream : LastFM :=
  canned {[ "album.getInfo" :=
    album_body (JObject {[ "track" := JList [JObject untimed_track] ]}) ]}.

(** A [track.getInfo] answer with all the members [get_track] reads. *)
Definition track_info_upstream : LastFM :=
  canned {[ "track.getInfo" := JObject {[ "track" := JObject {[
    "url" := JString "http://last.fm/music/band/_/song";
    "name" := JString "song";
    "image" := images "";
    "userplaycount" := JString "7";
    "artist" := JObject {[ "url" := JString "http://last.fm/music/band";
                           "name" := JString "band" ]};
    "album" := JObject {[ "url" := JString "http://last.fm/music/band/lp";
                          "name" := JString "lp";
                          "title" := JString "lp" ]};
    "toptags" := JObject {[ "tag" := JList [rock; indie] ]} ]} ]} ]}.

(** A [tag.getInfo] answer with all the members [get_tag] reads. *)
Definition tag_info_upstream : LastFM :=
  canned {[ "tag.getInfo" := JObject {[ "tag" := JObject {[
    "url" := JString "http://last.fm/tag/rock";
    "name" := JString "rock";
    "wiki" := JObject {[ "content" := JString "Rock music." ]};
    "image" := images "";
    "reach" := JString "395000";
    "total" := JString "4000000";
    "topartists" := JObject {[ "artist" := JList [rock; indie] ]};
    "topalbums" := JObject {[ "album" := JList [indie] ]};
    "toptracks" := JObject {[ "track" := JList [] ]} ]} ]} ]}.

(** * Properties *)

(** ** Statements, awaits and requests *)

Section Sequencing.
Context {A B : Type}.
Implicit Types (r : res A) (m : io A).

Lemma and_then_ok_inv r (k : A -> res B) b :
  and_then r k = Ok b -> exists a, r = Ok a /\ k a = Ok b.
Proof. destruct r as [a|e]; simpl; [eauto | discriminate]. Qed.

Lemma result_await m (k : A -> io B) :
  result (await m k) =
  match result m with Ok a => result (k a) | Raise e => Raise e end.
Proof. unfold await. destruct (result m); reflexivity. Qed.

Lemma await_ok_inv m (k : A -> io B) b :
  result (await m k) = Ok b -> exists a, result m = Ok a /\ result (k a) = Ok b.
Proof. rewrite result_await. destruct (result m); [eauto | discriminate]. Qed.

Lemma sent_await_lift m (k : A -> res B) :
  sent (await m (fun a => lift (k a))) = sent m.
Proof. unfold await. destruct (result m); simpl; [apply app_nil_r | reflexivity]. Qed.
End Sequencing.

(** One step of evaluation of the statements of a method: the sequencing
    and the runtime operations are unfolded, the tables and the bodies are
    left alone. *)
Ltac py_step :=
  cbn [and_then ok_json sub idx or_None int_ replace_ get getitem getindex
       contains default from_option id getitem_int_keys result sent lift is_dict
       negb not_ andb orb].

Lemma result_request self req paramater :
  result (request self req paramater) =
  (data ← session_get self LastFMurl (params self req); check data paramater).
Proof.
  unfold request. rewrite result_await. unfold session_get_json. py_step.
  destruct (session_get self LastFMurl (params self req)); reflexivity.
Qed.

(** Every call of [request] sends exactly one GET, to the fixed endpoint. *)
Lemma sent_request self req paramater :
  sent (request self req paramater) = [(LastFMurl, params self req)].
Proof. unfold request. apply sent_await_lift. Qed.

Lemma truthy_string_nonempty p : p <> "" -> truthy (JString p) = true.
Proof. intros Hp. simpl. destruct (String.eqb_spec p ""); [contradiction | reflexivity]. Qed.

Lemma size_lookup_Some {V} (m : gmap string V) k v : m !! k = Some v -> size m <> 0%nat.
Proof. intros Hk Hs. apply map_size_empty_iff in Hs. subst m. rewrite lookup_empty in Hk. discriminate. Qed.

(** ** The request executor *)

(** The static table has 22 entries. *)
Lemma LASTFM_ERRORS_size : size LASTFM_ERRORS = 22%nat.
Proof. vm_compute. reflexivity. Qed.

(** What [request] makes of an object body without the key [errors]. *)
Lemma result_request_no_errors_key self req paramater (body : gmap string json) :
  session_get self LastFMurl (params self req) = Ok (JObject body) ->
  body !! "errors" = None ->
  result (request self req paramater) =
    match paramater with
    | Some p =>
        if truthy (JString p) && negb (truthy (default JNull (body !! p)))
        then Raise (LastFMError ("Error: " +:+ p +:+ " not found"))
        else Ok (JObject body)
    | None => Ok (JObject body)
    end.
Proof.
  intros Hget Herrors. rewrite result_request, Hget. unfold check. py_step.
  rewrite Herrors, bool_decide_false by (intros [? ?]; discriminate).
  destruct paramater as [p|]; [| reflexivity].
  destruct (truthy (JString p)); [| reflexivity]. py_step.
  destruct (truthy (default JNull (body !! p))); reflexivity.
Qed.

Lemma append_inj_l s a b : s +:+ a = s +:+ b -> a = b.
Proof.
  induction s as [|c s IH]; [trivial |].
  change (String c s +:+ a) with (String c (s +:+ a)).
  change (String c s +:+ b) with (String c (s +:+ b)).
  intros [= H]. exact (IH H).
Qed.

(** C1, on the code: the table has 22 entries, not 27, and on a body
    that carries one of its codes under [error], as [{"error": code}]
    does, the code is not looked up.  [request] tests for the key [errors]
    and such a body has none, so it is taken for a payload: it is returned
    as it is when no field is required or the required field is there,
    and otherwise [request] complains that the field was not found.  The
    table's message is not raised (short of a field name that makes the
    complaint read the same). *)
Theorem request_error_code_not_looked_up :
  size LASTFM_ERRORS = 22%nat /\
  forall self req paramater (body : gmap string json) code msg,
    LASTFM_ERRORS !! code = Some msg ->
    session_get self LastFMurl (params self req) = Ok (JObject body) ->
    body !! "error" = Some (JInt code) ->
    body !! "errors" = None ->
    (paramater = None \/ paramater = Some "" ->
       result (request self req paramater) = Ok (JObject body)) /\
    (forall p, paramater = Some p -> p <> "" ->
       ((body !! p = None \/ exists v, body !! p = Some v /\ truthy v = false) ->
          result (request self req paramater)
          = Raise (LastFMError ("Error: " +:+ p +:+ " not found"))) /\
       ((exists v, body !! p = Some v /\ truthy v = true) ->
          result (request self req paramater) = Ok (JObject body))) /\
    ((forall p, paramater = Some p -> p +:+ " not found" <> msg) ->
       result (request self req paramater) <> Raise (LastFMError ("Error: " +:+ msg))).
Proof.
  split; [exact LASTFM_ERRORS_size |].
  intros self req paramater body code msg _ Hget _ Herrors.
  rewrite (result_request_no_errors_key self req paramater body Hget Herrors).
  split; [| split].
  - intros [-> | ->]; reflexivity.
  - intros p -> Hp. rewrite (truthy_string_nonempty p Hp). cbn [andb]. split.
    + intros [Hnone | (v & Hv & Hfalsy)].
      * rewrite Hnone. reflexivity.
      * rewrite Hv. cbn [default from_option id]. rewrite Hfalsy. reflexivity.
    + intros (v & Hv & Htruthy). rewrite Hv. cbn [default from_option id].
      rewrite Htruthy. reflexivity.
  - intros Hother. destruct paramater as [p|]; [| discriminate].
    destruct (truthy (JString p) && negb (truthy (default JNull (body !! p))));
      [| discriminate].
    intros [= Hsame]. apply append_inj_l in Hsame. exact (Hother p eq_refl Hsame).
Qed.

Lemma request_error_code_not_looked_up_witness :
  LASTFM_ERRORS !! 6%Z = Some "User/artist not found" /\
  result (request (answering (JObject {[ "error" := JInt 6 ]})) ∅ None)
    = Ok (JObject {[ "error" := JInt 6 ]}) /\
  result (request (answering (JObject {[ "error" := JInt 6 ]})) ∅ (Some "user"))
    = Raise (LastFMError "Error: user not found") /\
  result (request (answering (JObject {[ "error" := JInt 6 ]})) ∅ (Some "user"))
    <> Raise (LastFMError "Error: User/artist not found").
Proof.
  assert (Hmsg : LASTFM_ERRORS !! 6%Z = Some "User/artist not found")
    by (vm_compute; reflexivity).
  assert (Herror : ({[ "error" := JInt 6 ]} : gmap string json) !! "error" = Some (JInt 6))
    by reflexivity.
  assert (Herrors : ({[ "error" := JInt 6 ]} : gmap string json) !! "errors" = None)
    by reflexivity.
  destruct (proj2 request_error_code_not_looked_up
              (answering (JObject {[ "error" := JInt 6 ]})) ∅ None
              {[ "error" := JInt 6 ]} 6%Z "User/artist not found" Hmsg
              eq_refl Herror Herrors) as (Hnone & _ & _).
  destruct (proj2 request_error_code_not_looked_up
              (answering (JObject {[ "error" := JInt 6 ]})) ∅ (Some "user")
              {[ "error" := JInt 6 ]} 6%Z "User/artist not found" Hmsg
              eq_refl Herror Herrors) as (_ & Hfield & Hother).
  split; [exact Hmsg |]. split; [| split].
  - apply Hnone. left. reflexivity.
  - apply (Hfield "user" eq_refl); [discriminate |]. left. reflexivity.
  - apply Hother. intros p [= <-]. discriminate.
Defined.

(** C5, counterexample: the body carries an error with code 99, which the
    table lacks; [request] raises the [KeyError] of the table lookup, which
    is no [LastFMError]. *)
Lemma unmapped_error_is_raw_KeyError :
  LASTFM_ERRORS !! 99%Z = None /\
  result (request (answering (JObject {[ "errors" := JBool true; "error" := JInt 99 ]}))
            ∅ None)
  = Raise KeyError.
Proof. vm_compute. split; reflexivity. Qed.

(** C5, as amended: when the decoded body is an object on which the error
    test of [request] fires and whose [error] member is an integer absent
    from the table, [request] fails with the [KeyError] of the lookup: not
    a success, and not the [LastFMError] of the mapped case. *)
Theorem request_unmapped_error_KeyError self req paramater (body : gmap string json) code :
  LASTFM_ERRORS !! code = None ->
  session_get self LastFMurl (params self req) = Ok (JObject body) ->
  is_Some (body !! "errors") ->
  body !! "error" = Some (JInt code) ->
  result (request self req paramater) = Raise KeyError /\
  (forall data, result (request self req paramater) <> Ok data) /\
  (forall msg, result (request self req paramater) <> Raise (LastFMError msg)).
Proof.
  intros Hmsg Hget Herrors Hcode.
  assert (Hr : result (request self req paramater) = Raise KeyError).
  { rewrite result_request, Hget. unfold check. py_step.
    rewrite bool_decide_true by assumption. py_step.
    rewrite Hcode. py_step. rewrite Hmsg. reflexivity. }
  rewrite Hr. repeat split; intros; discriminate.
Qed.

Lemma request_unmapped_error_KeyError_witness :
  result (request (answering (JObject {[ "errors" := JBool true; "error" := JInt 1 ]}))
            ∅ (Some "user"))
  = Raise KeyError.
Proof.
  apply (request_unmapped_error_KeyError
           (answering (JObject {[ "errors" := JBool true; "error" := JInt 1 ]}))
           ∅ (Some "user") {[ "errors" := JBool true; "error" := JInt 1 ]} 1%Z).
  - vm_compute. reflexivity.
  - reflexivity.
  - vm_compute. eauto.
  - vm_compute. reflexivity.
Defined.

(** C6: let a required field name [p] be supplied (a name the test
    [if paramater] accepts, that is a non-empty one) and let the decoded
    body be an object without the error indicator [request] tests for, the
    key [errors].  If the field [p] is absent or falsy, [request] raises
    [LastFMError] with a message naming [p]; otherwise it returns the
    decoded body as it is. *)
Theorem request_required_field self req p (body : gmap string json) :
  p <> "" ->
  session_get self LastFMurl (params self req) = Ok (JObject body) ->
  body !! "errors" = None ->
  ((body !! p = None \/ exists v, body !! p = Some v /\ truthy v = false) ->
     result (request self req (Some p))
     = Raise (LastFMError ("Error: " +:+ p +:+ " not found"))) /\
  ((exists v, body !! p = Some v /\ truthy v = true) ->
     result (request self req (Some p)) = Ok (JObject body)).
Proof.
  intros Hp Hget Herrors.
  rewrite result_request, Hget. unfold check. py_step.
  rewrite Herrors, bool_decide_false by (intros [? ?]; discriminate).
  rewrite (truthy_string_nonempty p Hp). py_step.
  split.
  - intros [Hnone | (v & Hv & Hfalsy)].
    + rewrite Hnone. reflexivity.
    + rewrite Hv. py_step. rewrite Hfalsy. reflexivity.
  - intros (v & Hv & Htruthy). rewrite Hv. py_step. rewrite Htruthy. reflexivity.
Qed.

Lemma request_required_field_witness :
  result (request (answering (JObject {[ "message" := JString "ok"; "user" := JObject ∅ ]}))
            ∅ (Some "user"))
    = Raise (LastFMError "Error: user not found") /\
  result (request (answering (JObject {[ "user" := JObject {[ "name" := JString "alice" ]} ]}))
            ∅ (Some "user"))
    = Ok (JObject {[ "user" := JObject {[ "name" := JString "alice" ]} ]}).
Proof.
  split.
  - apply (proj1 (request_required_field
             (answering (JObject {[ "message" := JString "ok"; "user" := JObject ∅ ]}))
             ∅ "user" {[ "message" := JString "ok"; "user" := JObject ∅ ]}
             ltac:(discriminate) eq_refl ltac:(vm_compute; reflexivity))).
    right. exists (JObject ∅). vm_compute. split; reflexivity.
  - apply (proj2 (request_required_field
             (answering (JObject {[ "user" := JObject {[ "name" := JString "alice" ]} ]}))
             ∅ "user" {[ "user" := JObject {[ "name" := JString "alice" ]} ]}
             ltac:(discriminate) eq_refl ltac:(vm_compute; reflexivity))).
    exists (JObject {[ "name" := JString "alice" ]}). vm_compute. split; reflexivity.
Defined.

(** ** The public operations *)

(** C10: [library_artists], [library_albums] and [library_tracks] send the
    same request and apply the same mapping as [top_artists], [top_albums]
    and [top_tracks]: for every client, user name, period and limit the
    two members of a pair send the same requests and end the same way. *)
Theorem library_methods_equal_top_methods self username period limit :
  library_artists self username period limit = top_artists self username period limit /\
  library_albums self username period limit = top_albums self username period limit /\
  library_tracks self username period limit = top_tracks self username period limit.
Proof. repeat split; reflexivity. Qed.

(** C7, on the code: the method [get_album] in force sends one
    [album.getInfo] request that carries its first argument under the key
    [username]; the request has no [artist] parameter.  The definition it
    replaced passes the same argument under [artist]. *)
Theorem get_album_sends_username_not_artist self artist album :
  (exists query,
     sent (get_album self artist album) = [(LastFMurl, query)] /\
     query !! "method" = Some (JString "album.getInfo") /\
     query !! "album" = Some (JString album) /\
     query !! "username" = Some (JString artist) /\
     query !! "artist" = None) /\
  (exists query,
     sent (get_album_first self artist album) = [(LastFMurl, query)] /\
     query !! "artist" = Some (JString artist)).
Proof.
  split; eexists; (split; [unfold get_album, get_album_first;
                           rewrite sent_await_lift; apply sent_request |]);
    unfold params; repeat split;
    repeat first [ rewrite lookup_union_l by (vm_compute; reflexivity)
                 | rewrite lookup_union_r by (vm_compute; reflexivity) ];
    try (vm_compute; reflexivity).
Qed.

(** ** Joined tasks *)

Lemma mapM_res_cons {A B} (f : A -> res B) x l :
  mapM f (x :: l) = (y ← f x; k ← mapM f l; Ok (y :: k)).
Proof. cbn. destruct (f x); [| reflexivity]. cbn. destruct (mapM f l); reflexivity. Qed.

Lemma mapM_res_nil {A B} (f : A -> res B) : mapM f [] = Ok [].
Proof. reflexivity. Qed.

(** The values of the tasks come back one for one, in order. *)
Lemma mapM_res_Forall2 {A B} (f : A -> res B) l out :
  mapM f l = Ok out <-> Forall2 (fun x y => f x = Ok y) l out.
Proof.
  revert out. induction l as [|x l IH]; intros out.
  - rewrite mapM_res_nil. split.
    + intros [= <-]. constructor.
    + intros H. inversion H. reflexivity.
  - rewrite mapM_res_cons. split.
    + intros H. apply and_then_ok_inv in H as (y & Hy & H).
      apply and_then_ok_inv in H as (k & Hk & [= <-]).
      constructor; [assumption | apply IH, Hk].
    + intros H. inversion H as [|? y ? k Hy Hk]; subst.
      rewrite Hy. cbn [and_then]. apply IH in Hk. rewrite Hk. reflexivity.
Qed.

Lemma mapM_res_length {A B} (f : A -> res B) l out :
  mapM f l = Ok out -> length out = length l.
Proof. intros H. apply mapM_res_Forall2, Forall2_length in H. symmetry. exact H. Qed.

(** When [mapM] raises, one of the elements raised that exception. *)
Lemma mapM_res_raise {A B} (f : A -> res B) l e :
  mapM f l = Raise e -> exists x, x ∈ l /\ f x = Raise e.
Proof.
  induction l as [|x l IH]; [discriminate |].
  rewrite mapM_res_cons. destruct (f x) as [y|e'] eqn:Hx; cbn [and_then].
  - destruct (mapM f l) as [k|e'] eqn:Hl; cbn [and_then]; [discriminate |].
    intros [= ->]. destruct (IH eq_refl) as (x' & Hin & Hx').
    exists x'. split; [apply list_elem_of_further, Hin | exact Hx'].
  - intros [= ->]. exists x. split; [apply list_elem_of_here | exact Hx].
Qed.

(** The joined tasks return exactly when each of them returns, and then
    with the values of the tasks in their order. *)
Lemma result_gather_ok {A} self (tasks : list (io A)) values :
  result (gather self tasks) = Ok values <-> mapM result tasks = Ok values.
Proof.
  unfold gather. cbn [result].
  destruct (mapM result tasks); split; congruence.
Qed.

(** Whatever the timing, the exception the joined tasks raise is the
    exception of one of them. *)
Lemma result_gather_raise {A} self (tasks : list (io A)) e :
  result (gather self tasks) = Raise e -> exists task, task ∈ tasks /\ result task = Raise e.
Proof.
  unfold gather. cbn [result].
  destruct (mapM result tasks) as [values|earliest] eqn:Hall; [discriminate |].
  cbn zeta.
  destruct (omap (fun task : io A => exception (result task)) tasks
              !! raised_first self (omap (fun task : io A => exception (result task)) tasks))
    as [e'|] eqn:Hat; cbn [default from_option id]; intros [= <-].
  - apply list_elem_of_lookup_2, list_elem_of_omap in Hat as (task & Hin & Htask).
    exists task. split; [exact Hin |].
    destruct (result task); [discriminate Htask | injection Htask as ->; reflexivity].
  - apply mapM_res_raise, Hall.
Qed.

(** Joined tasks of which one raises do not return. *)
Lemma result_gather_raises {A} self (tasks : list (io A)) :
  (exists task e, task ∈ tasks /\ result task = Raise e) ->
  exists e, result (gather self tasks) = Raise e.
Proof.
  intros (task & e & Hin & Htask).
  destruct (result (gather self tasks)) as [values|e'] eqn:Hg; [| eauto].
  apply result_gather_ok, mapM_res_Forall2 in Hg.
  apply list_elem_of_lookup in Hin as [i Hi].
  destruct (Forall2_lookup_l _ _ _ _ _ Hg Hi) as (value & _ & Hvalue).
  rewrite Htask in Hvalue. discriminate Hvalue.
Qed.

(** ** [now_playing] without an album *)

(** C2, on the code: when the most recent track names no album (the
    [#text] of its [album] member is empty, or falsy in another way), only
    three tasks are gathered and the four-name unpacking that follows
    cannot succeed: [now_playing] does not return a record, and raises
    [ValueError] when the three requests themselves succeed. *)
Theorem now_playing_without_album_raises self username tracks track text :
  result (request self
            {[ "method" := JString "user.getRecentTracks";
               "username" := JString username;
               "limit" := JInt 1 ]}
            (Some "recenttracks")) = Ok tracks ->
  tracks.["recenttracks"].["track"].[#0] = Ok track ->
  track.["album"].["#text"] = Ok text ->
  truthy text = false ->
  (exists e, result (now_playing self username) = Raise e) /\
  (forall artist name,
     track.["artist"].["#text"] = Ok artist ->
     track.["name"] = Ok name ->
     is_ok (result (request self
              {[ "method" := JString "user.getInfo"; "username" := JString username ]}
              (Some "user"))) = true ->
     is_ok (result (request self
              {[ "method" := JString "track.getInfo";
                 "username" := JString username;
                 "artist" := artist;
                 "track" := name ]}
              (Some "track"))) = true ->
     is_ok (result (request self
              {[ "method" := JString "artist.getInfo";
                 "username" := JString username;
                 "artist" := artist ]}
              (Some "artist"))) = true ->
     result (now_playing self username) = Raise ValueError).
Proof.
  intros Htracks Htrack Htext Hfalsy.
  unfold now_playing.
  rewrite result_await, Htracks, result_await.
  cbn [result lift]. rewrite Htrack. cbn [and_then].
  destruct (track.["artist"].["#text"]) as [artist|e] eqn:Hartist; cbn [and_then];
    [| split; [eauto | intros ? ? [=]]].
  destruct (track.["name"]) as [name|e] eqn:Hname; cbn [and_then];
    [| split; [eauto | intros ? ? _ [=]]].
  rewrite Htext. cbn [and_then]. rewrite Hfalsy. cbn [and_then app].
  rewrite result_await.
  split.
  - destruct (result (gather self _)) as [results|e] eqn:Hresults; [| eauto].
    apply result_gather_ok, mapM_res_length in Hresults.
    destruct results as [|? [|? [|? [|? ?]]]]; try discriminate Hresults.
    cbn [result lift]. eauto.
  - intros ? ? [= <-] [= <-] Hu Ht Ha.
    destruct (result (request self _ (Some "user"))) as [user|] eqn:Huser;
      [| discriminate Hu].
    destruct (result (request self _ (Some "track"))) as [track'|] eqn:Htrack';
      [| discriminate Ht].
    destruct (result (request self _ (Some "artist"))) as [artist'|] eqn:Hartist';
      [| discriminate Ha].
    match goal with
    | |- context [result (gather self ?tasks)] =>
        assert (Hresults : result (gather self tasks) = Ok [user; track'; artist'])
          by (apply result_gather_ok; rewrite !mapM_res_cons, mapM_res_nil,
                Huser, Htrack', Hartist'; reflexivity)
    end.
    rewrite Hresults. reflexivity.
Qed.

Lemma now_playing_without_album_raises_witness :
  result (now_playing (upstream "" None "" "" (JObject ∅)) "alice") = Raise ValueError.
Proof.
  apply (proj2 (now_playing_without_album_raises
                  (upstream "" None "" "" (JObject ∅)) "alice"
                  (recent_body "" None) (recent_track "" None) (JString "")
                  ltac:(vm_compute; reflexivity) ltac:(vm_compute; reflexivity)
                  ltac:(vm_compute; reflexivity) ltac:(vm_compute; reflexivity))
               (JString "band") (JString "song"));
    vm_compute; reflexivity.
Defined.

(** ** Optional scalars *)

(** C4, on the code: the two spellings of "no value" are not treated
    alike.  [profile] passes the literal [None] through, for the country as
    for the real name, and [now_playing] passes the empty country through;
    each method normalises the spelling the other one misses. *)
Theorem absence_spellings_pass_through :
  (result (profile (upstream "lp" None "None" "None" (JObject ∅)) "alice")).["meta"].["country"]
    = Ok (JString "None") /\
  (result (profile (upstream "lp" None "None" "None" (JObject ∅)) "alice")).["government"]
    = Ok (JString "None") /\
  (result (now_playing (upstream "lp" None "" "" (JObject ∅)) "alice")).["user"].["meta"].["country"]
    = Ok (JString "") /\
  (result (profile (upstream "lp" None "" "" (JObject ∅)) "alice")).["meta"].["country"]
    = Ok JNull /\
  (result (now_playing (upstream "lp" None "" "None" (JObject ∅)) "alice")).["user"].["meta"].["country"]
    = Ok JNull.
Proof. vm_compute. repeat split; reflexivity. Qed.

(** ** Repeated fields *)

(** C3, counterexample: with [tags] given as the single object
    [{"tag": {"name": "rock", "url": "u"}}], [get_artist] raises
    [TypeError] instead of returning a one-element list of tags. *)
Lemma single_tag_object_raises :
  result (get_artist single_tag_upstream "band") = Raise TypeError.
Proof. vm_compute. reflexivity. Qed.

(** ** The playing flag *)

(** C9, counterexample: the most recent track has a [date] key, with an
    empty value, and is mapped to [playing = true] by [recent_tracks] and
    by [now_playing]. *)
Lemma playing_true_with_date_key :
  (Ok (recent_track "lp" (Some (JString "")))).["date"] = Ok (JString "") /\
  (result (recent_tracks (upstream "lp" (Some (JString "")) "" "" (JObject ∅)) "alice" 1)).[#0].["playing"]
    = Ok (JBool true) /\
  (result (now_playing (upstream "lp" (Some (JString "")) "" "" (JObject ∅)) "alice")).["playing"]
    = Ok (JBool true).
Proof. vm_compute. repeat split; reflexivity. Qed.

(** ** [int] on decimal numerals *)

Section Decimal_numerals.
Import Decimal.
#[local] Open Scope Z_scope.

Lemma usize_nb_digits d : DecimalPos.Unsigned.usize d = N.of_nat (nb_digits d).
Proof. induction d; cbn [DecimalPos.Unsigned.usize nb_digits]; rewrite ?IHd; lia. Qed.

Lemma length_string_of_uint d :
  String.length (NilEmpty.string_of_uint d) = nb_digits d.
Proof. induction d; cbn; rewrite ?IHd; reflexivity. Qed.

(** The value of a numeral from its leading digit and the rest. *)
Lemma of_uint_leading d :
  Z.of_N (N.of_uint d) =
  Z.of_N (DecimalPos.Unsigned.hd d) * 10 ^ Z.of_nat (nb_digits (DecimalPos.Unsigned.tl d))
  + Z.of_N (N.of_uint (DecimalPos.Unsigned.tl d)).
Proof.
  unfold N.of_uint. rewrite !DecimalPos.Unsigned.of_uint_alt.
  destruct d; [reflexivity | ..];
    cbn [DecimalPos.Unsigned.hd DecimalPos.Unsigned.tl];
    unfold rev at 1; cbn [revapp]; rewrite DecimalPos.Unsigned.of_lu_revapp;
    cbn [DecimalPos.Unsigned.of_lu]; rewrite usize_nb_digits;
    rewrite N2Z.inj_add, N2Z.inj_mul, N2Z.inj_pow, nat_N_Z; cbn; lia.
Qed.

Lemma int_digits_decimal d acc count :
  int_digits acc count (NilEmpty.string_of_uint d) =
  Some (acc * 10 ^ Z.of_nat (nb_digits d) + Z.of_N (N.of_uint d),
        (count + nb_digits d)%nat, EmptyString).
Proof.
  revert acc count.
  induction d; intros acc count;
    [ cbn; rewrite Z.mul_1_r, Z.add_0_r, Nat.add_0_r; reflexivity | .. ];
    rewrite (of_uint_leading (_ d));
    cbn [DecimalPos.Unsigned.hd DecimalPos.Unsigned.tl nb_digits NilEmpty.string_of_uint];
    cbn [int_digits];
    match goal with
    | |- context [digit_of ?c] =>
        let v := eval vm_compute in (digit_of c) in change (digit_of c) with v
    end;
    cbn beta iota; rewrite IHd, Nat2Z.inj_succ, Z.pow_succ_r by lia;
    rewrite <- Nat.add_succ_comm;
    do 3 f_equal; cbn [Z.of_N]; ring.
Qed.

(** [int] reads a decimal numeral as the number it denotes, up to the
    digit limit of the interpreter. *)
Lemma int_of_string_numeral k :
  (String.length (numeral k) <= int_max_str_digits)%nat ->
  int_of_string (numeral k) = Ok (Z.of_N k).
Proof.
  unfold numeral. intros Hlen.
  rewrite <- (DecimalN.Unsigned.of_to k) at 2.
  assert (Hnil : N.to_uint k <> Nil).
  { destruct k; [discriminate | apply DecimalPos.Unsigned.to_uint_nonnil]. }
  rewrite length_string_of_uint in Hlen.
  destruct (N.to_uint k) as [|d|d|d|d|d|d|d|d|d|d]; [contradiction | ..];
    rewrite (of_uint_leading (_ d));
    cbn [DecimalPos.Unsigned.hd DecimalPos.Unsigned.tl nb_digits NilEmpty.string_of_uint] in *;
    unfold int_of_string; cbn [skip_spaces];
    match goal with
    | |- context [is_space ?c] =>
        let v := eval vm_compute in (is_space c) in change (is_space c) with v
    end;
    cbn beta iota;
    match goal with
    | |- context [digit_of ?c] =>
        let v := eval vm_compute in (digit_of c) in change (digit_of c) with v
    end;
    cbn beta iota; rewrite int_digits_decimal; cbn [skip_spaces String.eqb negb];
    cbn beta iota;
    (destruct (Nat.ltb_spec int_max_str_digits (1 + nb_digits d)) as [Hlt|_];
       [cbn [Nat.add] in Hlt; lia |]);
    do 2 f_equal; cbn [Z.of_N]; ring.
Qed.
End Decimal_numerals.

Lemma int_numeral k :
  (String.length (numeral k) <= int_max_str_digits)%nat ->
  int_ (Ok (JString (numeral k))) = Ok (JInt (Z.of_N k)).
Proof. intros Hlen. cbn [int_ and_then int]. rewrite (int_of_string_numeral k Hlen). reflexivity. Qed.

(** ** Top lists *)

(** [l[-1]] is the last element. *)
Lemma seq_index_last {A} (l : list A) x : seq_index (l ++ [x]) (-1) = Some x.
Proof.
  unfold seq_index. rewrite length_app. cbn [length].
  replace (-1 <? 0)%Z with true by reflexivity.
  destruct (Z.ltb_spec (-1 + Z.of_nat (length l + 1)) 0) as [Hneg|_]; [lia |].
  apply list_lookup_middle. lia.
Qed.

(** A successful request whose required field is present returns the body. *)
Lemma result_request_field self req p (body : gmap string json) v :
  p <> "" ->
  session_get self LastFMurl (params self req) = Ok (JObject body) ->
  body !! "errors" = None ->
  body !! p = Some (JObject v) ->
  v <> ∅ ->
  result (request self req (Some p)) = Ok (JObject body).
Proof.
  intros Hp Hget Herrors Hfield Hv.
  rewrite result_request, Hget. unfold check. py_step.
  rewrite Herrors, bool_decide_false by (intros [? ?]; discriminate).
  rewrite (truthy_string_nonempty p Hp). py_step. rewrite Hfield. py_step.
  cbn [truthy]. destruct (Nat.eqb_spec (size v) 0) as [Hsize|_]; [| reflexivity].
  apply map_size_empty_iff in Hsize. contradiction.
Qed.

(** C8: let the [topartists] payload hold a list of [n] artist objects,
    each with a url, a name, an image list and a play count written as a
    decimal numeral.  Then [top_artists] returns exactly [n] records, in
    the order of the payload, and the [plays] field of each is the integer
    the numeral denotes. *)
Theorem top_artists_in_order self username period limit
    (body topartists : gmap string json) (artists out : list json) :
  session_get self LastFMurl
    (params self {[ "method" := JString "user.getTopArtists";
                    "username" := JString username;
                    "period" := JString period;
                    "limit" := JInt limit ]}) = Ok (JObject body) ->
  body !! "errors" = None ->
  body !! "topartists" = Some (JObject topartists) ->
  topartists !! "artist" = Some (JList artists) ->
  Forall2 (fun artist record =>
      exists (a last : gmap string json) (url name text : json) (sizes : list json) (k : N),
        artist = JObject a /\
        a !! "url" = Some url /\
        a !! "name" = Some name /\
        a !! "image" = Some (JList (sizes ++ [JObject last])) /\
        last !! "#text" = Some text /\
        a !! "playcount" = Some (JString (numeral k)) /\
        (String.length (numeral k) <= int_max_str_digits)%nat /\
        record = JObject {[ "url" := url;
                            "name" := name;
                            "image" := or_ text JNull;
                            "plays" := JInt (Z.of_N k) ]})
    artists out ->
  result (top_artists self username period limit) = Ok (JList out) /\
  length out = length artists.
Proof.
  intros Hget Herrors Htop Hartist Hall.
  split; [| symmetry; exact (Forall2_length _ _ _ Hall)].
  unfold top_artists. rewrite result_await.
  rewrite (result_request_field self _ "topartists" body topartists
             ltac:(discriminate) Hget Herrors Htop
             ltac:(intros ->; rewrite lookup_empty in Hartist; discriminate)).
  unfold comprehension. py_step. rewrite Htop. py_step. rewrite Hartist. py_step.
  cbn [iter and_then].
  match goal with
  | |- and_then (mapM ?f artists) _ = _ =>
      assert (Hmap : mapM f artists = Ok out); [| rewrite Hmap; reflexivity]
  end.
  apply mapM_res_Forall2.
  eapply Forall2_impl; [exact Hall |].
  intros artist record
    (a & last & url & name & text & sizes & k & -> & Hurl & Hname & Himage & Htext & Hplays & Hlen & ->).
  py_step. rewrite Hurl, Hname, Himage. py_step.
  rewrite seq_index_last. py_step. rewrite Htext, Hplays. py_step.
  change (and_then (and_then (int (JString (numeral k))) (fun n => Ok (JInt n))) ?k0)
    with (and_then (int_ (Ok (JString (numeral k)))) k0).
  rewrite (int_numeral k Hlen). reflexivity.
Qed.

Lemma top_artists_in_order_witness :
  result (top_artists (canned {[ "user.getTopArtists" := top_artists_body ]}) "alice" "7day" 5)
  = Ok (JList [ artist_summary "a" 123; artist_summary "b" 45; artist_summary "c" 45;
                artist_summary "d" 7; artist_summary "e" 0 ]) /\
  length [ artist_summary "a" 123; artist_summary "b" 45; artist_summary "c" 45;
           artist_summary "d" 7; artist_summary "e" 0 ] = 5%nat.
Proof.
  assert (Hentry : forall name (k : N),
    (String.length (numeral k) <= int_max_str_digits)%nat ->
    exists (a last : gmap string json) (url name' text : json) (sizes : list json) (k' : N),
      top_artist name (numeral k) = JObject a /\
      a !! "url" = Some url /\
      a !! "name" = Some name' /\
      a !! "image" = Some (JList (sizes ++ [JObject last])) /\
      last !! "#text" = Some text /\
      a !! "playcount" = Some (JString (numeral k')) /\
      (String.length (numeral k') <= int_max_str_digits)%nat /\
      artist_summary name (Z.of_N k) =
        JObject {[ "url" := url; "name" := name'; "image" := or_ text JNull;
                   "plays" := JInt (Z.of_N k') ]}).
  { intros name k Hlen.
    exists {[ "url" := JString ("http://last.fm/music/" +:+ name);
              "name" := JString name;
              "image" := images "";
              "playcount" := JString (numeral k) ]},
           {[ "#text" := JString ""; "size" := JString "extralarge" ]},
           (JString ("http://last.fm/music/" +:+ name)), (JString name), (JString ""),
           [JObject {[ "#text" := JString "http://img/34.png"; "size" := JString "small" ]}],
           k.
    repeat split; try reflexivity; try assumption;
      repeat first [ rewrite lookup_insert_eq; reflexivity
                   | rewrite lookup_insert_ne by discriminate
                   | rewrite lookup_singleton_eq; reflexivity ]. }
  apply (top_artists_in_order
           (canned {[ "user.getTopArtists" := top_artists_body ]}) "alice" "7day" 5
           {[ "topartists" := JObject {[ "artist" := JList [
                top_artist "a" "123"; top_artist "b" "45"; top_artist "c" "45";
                top_artist "d" "7"; top_artist "e" "0" ] ]} ]}
           {[ "artist" := JList [
                top_artist "a" "123"; top_artist "b" "45"; top_artist "c" "45";
                top_artist "d" "7"; top_artist "e" "0" ] ]}
           [ top_artist "a" "123"; top_artist "b" "45"; top_artist "c" "45";
             top_artist "d" "7"; top_artist "e" "0" ]
           [ artist_summary "a" 123; artist_summary "b" 45; artist_summary "c" 45;
             artist_summary "d" 7; artist_summary "e" 0 ]).
  - vm_compute. reflexivity.
  - vm_compute. reflexivity.
  - vm_compute. reflexivity.
  - vm_compute. reflexivity.
  - repeat apply List.Forall2_cons; [ .. | apply List.Forall2_nil ].
    + apply (Hentry "a" 123%N). apply Nat.leb_le. vm_compute. reflexivity.
    + apply (Hentry "b" 45%N). apply Nat.leb_le. vm_compute. reflexivity.
    + apply (Hentry "c" 45%N). apply Nat.leb_le. vm_compute. reflexivity.
    + apply (Hentry "d" 7%N). apply Nat.leb_le. vm_compute. reflexivity.
    + apply (Hentry "e" 0%N). apply Nat.leb_le. vm_compute. reflexivity.
Defined.

(** ** Reading a successful run backwards *)

(** From [x ← e; k] having returned, recover the value of every statement. *)
Ltac invert_statements H :=
  repeat match type of H with
         | and_then _ _ = Ok _ =>
             let v := fresh "v" in
             let E := fresh "E" in
             apply and_then_ok_inv in H as (v & E & H)
         end.

Lemma get_ok_inv v k x :
  get v k = Ok x -> exists m : gmap string json, v = JObject m /\ x = default JNull (m !! k).
Proof. destruct v; try discriminate. intros [= <-]. eauto. Qed.

(** The flag computed by [not bool(track.get("date"))], read off the
    track: true when there is no [date] or a falsy one, false when there is
    a truthy one. *)
Lemma playing_cases (t : gmap string json) :
  let playing := negb (truthy (JBool (truthy (default JNull (t !! "date"))))) in
  (playing = true /\ (t !! "date" = None \/ exists d, t !! "date" = Some d /\ truthy d = false)) \/
  (playing = false /\ exists d, t !! "date" = Some d /\ truthy d = true).
Proof.
  cbn [truthy]. destruct (t !! "date") as [d|] eqn:Hd; cbn [default from_option id].
  - destruct (truthy d) eqn:Ht; [right | left]; eauto 6.
  - left. cbn. eauto.
Qed.

(** The statements of [now_playing], read backwards from a returned
    record. *)
Ltac invert_now_playing H tracks Htracks _track tasks Hpure
                        user track artist album Hresults :=
  unfold now_playing in H;
  apply await_ok_inv in H as (tracks & Htracks & H);
  apply await_ok_inv in H as ([_track tasks] & Hpure & H);
  cbn [result lift] in Hpure;
  invert_statements Hpure;
  injection Hpure as <- <-;
  let results := fresh "results" in
  apply await_ok_inv in H as (results & Hresults & H);
  cbn [result lift] in H;
  destruct results as [|user [|track [|artist [|album [|]]]]]; try discriminate H;
  invert_statements H.

(** C9, as amended: in [now_playing] and in [recent_tracks] a mapped track
    record has [playing = true] if and only if the raw track object has no
    [date] key or a falsy value under it ([None], [False], zero, an empty
    string, list or object), and [playing = false] whenever it has a truthy
    [date]. *)
Theorem playing_iff_no_truthy_date self username :
  (forall out,
     result (now_playing self username) = Ok out ->
     exists (tracks : json) (t : gmap string json),
       result (request self
                 {[ "method" := JString "user.getRecentTracks";
                    "username" := JString username;
                    "limit" := JInt 1 ]}
                 (Some "recenttracks")) = Ok tracks /\
       tracks.["recenttracks"].["track"].[#0] = Ok (JObject t) /\
       ((out.["playing"] = Ok (JBool true) /\
         (t !! "date" = None \/ exists d, t !! "date" = Some d /\ truthy d = false)) \/
        (out.["playing"] = Ok (JBool false) /\
         exists d, t !! "date" = Some d /\ truthy d = true))) /\
  (forall limit out,
     result (recent_tracks self username limit) = Ok out ->
     exists (response : json) (raw records : list json),
       result (request self
                 {[ "method" := JString "user.getRecentTracks";
                    "username" := JString username;
                    "limit" := JInt limit;
                    "autoscorrect" := JInt 1 ]}
                 (Some "recenttracks")) = Ok response /\
       (v ← response.["recenttracks"].["track"]; iter v) = Ok raw /\
       out = JList records /\
       Forall2 (fun track record : json =>
           exists t : gmap string json,
             track = JObject t /\
             ((record.["playing"] = Ok (JBool true) /\
               (t !! "date" = None \/ exists d, t !! "date" = Some d /\ truthy d = false)) \/
              (record.["playing"] = Ok (JBool false) /\
               exists d, t !! "date" = Some d /\ truthy d = true)))
         raw records).
Proof.
  split.
  - intros out H.
    invert_now_playing H tracks Htracks _track tasks Hpure user track artist album Hresults.
    injection H as <-.
    match goal with
    | Hdate : get _ "date" = Ok _ |- _ =>
        apply get_ok_inv in Hdate as (t & -> & ->)
    end.
    exists tracks, t. split; [assumption |]. split; [assumption |].
    assert (Hplaying : forall response : gmap string json,
      response !! "playing"
        = Some (not_ (JBool (truthy (default JNull (t !! "date"))))) ->
      (((Ok (JObject response)).["playing"] = Ok (JBool true) /\
        (t !! "date" = None \/ exists d, t !! "date" = Some d /\ truthy d = false)) \/
       ((Ok (JObject response)).["playing"] = Ok (JBool false) /\
        exists d, t !! "date" = Some d /\ truthy d = true))).
    { intros response Hlookup. py_step. rewrite Hlookup. unfold not_.
      destruct (playing_cases t) as [[-> ?] | [-> ?]]; [left | right]; split; auto. }
    apply Hplaying. rewrite lookup_insert_ne by discriminate.
    match goal with
    | Halbum : (if truthy album then _ else _) = Ok _ |- _ =>
        destruct (truthy album);
        [ invert_statements Halbum; injection Halbum as <- | injection Halbum as <- ]
    end; reflexivity.
  - intros limit out H.
    unfold recent_tracks in H.
    apply await_ok_inv in H as (response & Hresponse & H).
    cbn [result lift] in H. unfold comprehension in H.
    apply and_then_ok_inv in H as (v & Hv & H).
    apply and_then_ok_inv in H as (raw & Hraw & H).
    apply and_then_ok_inv in H as (records & Hrecords & H).
    injection H as <-.
    exists response, raw, records.
    split; [assumption |]. split; [rewrite Hv; exact Hraw |]. split; [reflexivity |].
    apply mapM_res_Forall2 in Hrecords.
    eapply Forall2_impl; [exact Hrecords |].
    intros track record H. cbn beta in H.
    invert_statements H. injection H as <-.
    match goal with
    | Hdate : get _ "date" = Ok _ |- _ =>
        apply get_ok_inv in Hdate as (t & -> & ->)
    end.
    exists t. split; [reflexivity |]. py_step.
    replace (({[ "url" := _; "name" := _; "image" := _; "plays" := _;
                 "playing" := not_ (JBool (truthy (default JNull (t !! "date"))));
                 "artist" := _ ]} : gmap string json) !! "playing")
      with (Some (not_ (JBool (truthy (default JNull (t !! "date")))))) by reflexivity.
    unfold not_.
    destruct (playing_cases t) as [[-> ?] | [-> ?]]; [left | right]; split; auto.
Qed.

Lemma playing_iff_no_truthy_date_witness :
  (exists out,
     result (now_playing scrobbled_upstream "alice") = Ok out /\
     exists (tracks : json) (t : gmap string json),
       result (request scrobbled_upstream
                 {[ "method" := JString "user.getRecentTracks";
                    "username" := JString "alice";
                    "limit" := JInt 1 ]}
                 (Some "recenttracks")) = Ok tracks /\
       tracks.["recenttracks"].["track"].[#0] = Ok (JObject t) /\
       ((out.["playing"] = Ok (JBool true) /\
         (t !! "date" = None \/ exists d, t !! "date" = Some d /\ truthy d = false)) \/
        (out.["playing"] = Ok (JBool false) /\
         exists d, t !! "date" = Some d /\ truthy d = true))) /\
  (exists out,
     result (recent_tracks playing_upstream "alice" 1) = Ok out /\
     exists (response : json) (raw records : list json),
       result (request playing_upstream
                 {[ "method" := JString "user.getRecentTracks";
                    "username" := JString "alice";
                    "limit" := JInt 1;
                    "autoscorrect" := JInt 1 ]}
                 (Some "recenttracks")) = Ok response /\
       (v ← response.["recenttracks"].["track"]; iter v) = Ok raw /\
       out = JList records /\
       Forall2 (fun track record : json =>
           exists t : gmap string json,
             track = JObject t /\
             ((record.["playing"] = Ok (JBool true) /\
               (t !! "date" = None \/ exists d, t !! "date" = Some d /\ truthy d = false)) \/
              (record.["playing"] = Ok (JBool false) /\
               exists d, t !! "date" = Some d /\ truthy d = true)))
         raw records).
Proof.
  split.
  - destruct (result (now_playing scrobbled_upstream "alice")) as [out|e] eqn:Hout;
      [| vm_compute in Hout; discriminate Hout].
    exists out. split; [reflexivity |].
    exact (proj1 (playing_iff_no_truthy_date scrobbled_upstream "alice") out Hout).
  - destruct (result (recent_tracks playing_upstream "alice" 1)) as [out|e] eqn:Hout;
      [| vm_compute in Hout; discriminate Hout].
    exists out. split; [reflexivity |].
    exact (proj2 (playing_iff_no_truthy_date playing_upstream "alice") 1%Z out Hout).
Defined.

(** ** Repeated fields, continued *)

(** Iterating a non-empty object yields its keys, and a key is a string:
    the projection [{"name": x["name"], "url": x["url"]}] raises
    [TypeError] on the first of them. *)
Lemma comprehension_name_url_object (m : gmap string json) :
  m <> ∅ -> comprehension name_url (Ok (JObject m)) = Raise TypeError.
Proof.
  intros Hne. unfold comprehension. cbn [and_then iter].
  destruct (map_to_list m) as [|[k v] rest] eqn:Hlist.
  - apply map_to_list_empty_iff in Hlist. contradiction.
  - cbn [fmap list_fmap fst]. rewrite mapM_res_cons. reflexivity.
Qed.

Lemma comprehension_list_inv f (l : list json) out :
  comprehension f (Ok (JList l)) = Ok out ->
  exists records, out = JList records /\ Forall2 (fun x y => f x = Ok y) l records.
Proof.
  unfold comprehension. cbn [and_then iter]. intros H.
  apply and_then_ok_inv in H as (records & Hrecords & [= <-]).
  exists records. split; [reflexivity | apply mapM_res_Forall2, Hrecords].
Qed.

Lemma name_url_inv x y :
  name_url x = Ok y ->
  exists name url,
    x.["name"] = Ok name /\ x.["url"] = Ok url /\
    y = JObject {[ "name" := name; "url" := url ]}.
Proof.
  unfold name_url. intros H. invert_statements H. injection H as <-. eauto.
Qed.


Lemma gather4_inv {A} self (t1 t2 t3 t4 : io A) a b c d :
  result (gather self [t1; t2; t3; t4]) = Ok [a; b; c; d] ->
  result t1 = Ok a /\ result t2 = Ok b /\ result t3 = Ok c /\ result t4 = Ok d.
Proof.
  intros H. apply result_gather_ok, mapM_res_Forall2 in H.
  repeat match goal with
         | H : Forall2 _ (_ :: _) (_ :: _) |- _ => apply Forall2_cons_1 in H as [? H]
         end.
  auto.
Qed.

Lemma sub_ok_truthy (v : json) k x : v.[k] = Ok x -> truthy v = true.
Proof.
  cbn [sub ok_json and_then]. destruct v as [| | | | | |m]; try discriminate. cbn [getitem truthy].
  destruct (m !! k) eqn:Hk; [intros _ | discriminate].
  destruct (Nat.eqb_spec (size m) 0) as [Hsize|_]; [| reflexivity].
  exfalso. exact (size_lookup_Some m k _ Hk Hsize).
Qed.

Lemma sub_ok_inv (r : res json) k x : r.[k] = Ok x -> exists v : json, r = Ok v /\ v.[k] = Ok x.
Proof. unfold sub at 1. intros H. apply and_then_ok_inv in H as (v & -> & H). eauto. Qed.

(** A comprehension over an array maps it element by element, in order. *)
Lemma comprehension_in_order (entry : json -> json -> Prop) f raw out :
  (forall x record, f x = Ok record -> entry x record) ->
  comprehension f raw = Ok out ->
  forall l, raw = Ok (JList l) ->
    exists records, out = JList records /\ Forall2 entry l records.
Proof.
  intros Hf H l ->. apply comprehension_list_inv in H as (records & -> & Hall).
  exists records. split; [reflexivity |].
  eapply Forall2_impl; [exact Hall | exact Hf].
Qed.

(** A comprehension over a non-empty object runs over its keys, and its
    body subscripts the first of them, a string, by a name. *)
Lemma comprehension_single_raises f raw :
  (forall s, f (JString s) = Raise TypeError) ->
  (exists m : gmap string json, raw = Ok (JObject m) /\ m <> ∅) ->
  comprehension f raw = Raise TypeError.
Proof.
  intros Hf (m & -> & Hne). unfold comprehension. cbn [and_then iter].
  destruct (map_to_list m) as [|[k v] rest] eqn:Hlist.
  - apply map_to_list_empty_iff in Hlist. contradiction.
  - cbn [fmap list_fmap fst]. rewrite mapM_res_cons, Hf. reflexivity.
Qed.

(** The statements of a method that awaits one request, read backwards
    from a returned value. *)
Ltac invert_mapper H Hresponse :=
  let response' := fresh "response" in
  let Hresponse' := fresh "Hresponse" in
  apply await_ok_inv in H as (response' & Hresponse' & H);
  rewrite Hresponse in Hresponse'; injection Hresponse' as <-;
  cbn [result lift] in H; invert_statements H;
  try (injection H as <-).

(** The entry of a returned list keeps the name and the url of the
    element it was made from. *)
Ltac entry_kept :=
  let x := fresh "x" in
  let record := fresh "record" in
  let Hrecord := fresh "Hrecord" in
  intros x record Hrecord; cbn beta in Hrecord; try unfold name_url in Hrecord;
  invert_statements Hrecord; injection Hrecord as <-;
  do 2 eexists; split; [eassumption |]; split; [eassumption |];
  split; reflexivity.

(** The field made from [raw], among the comprehensions of a returned
    record. *)
Ltac field_in_order :=
  let l := fresh "l" in
  let Hl := fresh "Hl" in
  intros l Hl;
  match goal with
  | E : comprehension name_url ?raw = Ok _, Hl : ?raw = Ok (JList _) |- _ =>
      destruct (comprehension_in_order _ name_url raw _ name_url_inv E _ Hl)
        as (records & -> & Hall);
      exists records; split; [reflexivity | exact Hall]
  | E : comprehension ?f ?raw = Ok _, Hl : ?raw = Ok (JList _) |- _ =>
      eapply (comprehension_in_order _ f raw _) in E as (records & -> & Hall);
      [ exists records; split; [reflexivity | exact Hall] | entry_kept | exact Hl ]
  end.

(** A method one of whose comprehensions runs over a single object does
    not return. *)
Ltac single_raises Hsingle :=
  match goal with
  | E : comprehension ?f ?raw = Ok _ |- _ =>
      rewrite (comprehension_single_raises f raw (fun _ => eq_refl) Hsingle) in E;
      discriminate E
  end.

(** C3, as amended: every mapper projects a repeated field that arrives
    as an array element by element, in order: the tags, similar artists,
    top tracks and top albums of [get_artist], the tracks and tags of
    [get_album], the tags of [get_track], the three top lists of
    [get_tag], the list of [recent_tracks], the lists of the [top_] and
    [library_] methods, and the album tracks of [now_playing].  Each entry
    keeps the name and the url of its element; where the entry is a pair
    of name and url it is exactly that pair.  A single child object in
    place of the array is never treated as a one-element sequence: the
    mappers without a guard iterate over the keys of the object and raise
    when it is non-empty, and [now_playing], whose album track list has a
    guard, maps it to the empty list. *)
Theorem repeated_field_projection self :
  let kept (x record : json) :=
    exists name url,
      x.["name"] = Ok name /\ x.["url"] = Ok url /\
      record.["name"] = Ok name /\ record.["url"] = Ok url in
  let pair (x record : json) :=
    exists name url,
      x.["name"] = Ok name /\ x.["url"] = Ok url /\
      record = JObject {[ "name" := name; "url" := url ]} in
  let in_order (entry : json -> json -> Prop) (raw field : res json) :=
    forall l, raw = Ok (JList l) ->
      exists records, field = Ok (JList records) /\ Forall2 entry l records in
  let single (raw : res json) :=
    exists m : gmap string json, raw = Ok (JObject m) /\ m <> ∅ in
  (forall artist response,
     result (request self
               {[ "method" := JString "artist.getInfo"; "artist" := JString artist ]}
               (Some "artist")) = Ok response ->
     (forall out,
        result (get_artist self artist) = Ok out ->
        in_order pair (response.["artist"].["tags"].["tag"]) (out.["tags"]) /\
        in_order pair (response.["artist"].["similar"].["artist"]) (out.["similar"]) /\
        in_order pair (response.["artist"].["toptracks"].["track"]) (out.["tracks"]) /\
        in_order pair (response.["artist"].["topalbums"].["album"]) (out.["albums"])) /\
     (single (response.["artist"].["tags"].["tag"]) \/
      single (response.["artist"].["similar"].["artist"]) \/
      single (response.["artist"].["toptracks"].["track"]) \/
      single (response.["artist"].["topalbums"].["album"]) ->
      exists e, result (get_artist self artist) = Raise e)) /\
  (forall username album response,
     result (request self
               {[ "method" := JString "album.getInfo";
                  "username" := JString username;
                  "album" := JString album ]}
               (Some "album")) = Ok response ->
     (forall out,
        result (get_album self username album) = Ok out ->
        in_order kept (response.["album"].["tracks"].["track"]) (out.["tracks"]) /\
        in_order pair (response.["album"].["tags"].["tag"]) (out.["tags"])) /\
     (single (response.["album"].["tracks"].["track"]) \/
      single (response.["album"].["tags"].["tag"]) ->
      exists e, result (get_album self username album) = Raise e)) /\
  (forall username artist track response,
     result (request self
               {[ "method" := JString "track.getInfo";
                  "username" := JString username;
                  "artist" := JString artist;
                  "track" := JString track ]}
               (Some "track")) = Ok response ->
     (forall out,
        result (get_track self username artist track) = Ok out ->
        in_order pair (response.["track"].["toptags"].["tag"]) (out.["tags"])) /\
     (single (response.["track"].["toptags"].["tag"]) ->
      exists e, result (get_track self username artist track) = Raise e)) /\
  (forall tag response,
     result (request self
               {[ "method" := JString "tag.getInfo"; "tag" := JString tag ]}
               (Some "tag")) = Ok response ->
     (forall out,
        result (get_tag self tag) = Ok out ->
        in_order pair (response.["tag"].["topartists"].["artist"]) (out.["top_artists"]) /\
        in_order pair (response.["tag"].["topalbums"].["album"]) (out.["top_albums"]) /\
        in_order pair (response.["tag"].["toptracks"].["track"]) (out.["top_tracks"])) /\
     (single (response.["tag"].["topartists"].["artist"]) \/
      single (response.["tag"].["topalbums"].["album"]) \/
      single (response.["tag"].["toptracks"].["track"]) ->
      exists e, result (get_tag self tag) = Raise e)) /\
  (forall username limit response,
     result (request self
               {[ "method" := JString "user.getRecentTracks";
                  "username" := JString username;
                  "limit" := JInt limit;
                  "autoscorrect" := JInt 1 ]}
               (Some "recenttracks")) = Ok response ->
     (forall out,
        result (recent_tracks self username limit) = Ok out ->
        in_order kept (response.["recenttracks"].["track"]) (Ok out)) /\
     (single (response.["recenttracks"].["track"]) ->
      exists e, result (recent_tracks self username limit) = Raise e)) /\
  (forall (method : LastFM -> string -> string -> Z -> io json) (name field child : string),
     (method, name, field, child) ∈
       [ (top_artists, "user.getTopArtists", "topartists", "artist");
         (top_tracks, "user.getTopTracks", "toptracks", "track");
         (top_albums, "user.getTopAlbums", "topalbums", "album");
         (library_artists, "user.getTopArtists", "topartists", "artist");
         (library_tracks, "user.getTopTracks", "toptracks", "track");
         (library_albums, "user.getTopAlbums", "topalbums", "album");
         (library_tags, "user.getTopTags", "toptags", "tag") ] ->
     forall username period limit response,
       result (request self
                 {[ "method" := JString name;
                    "username" := JString username;
                    "period" := JString period;
                    "limit" := JInt limit ]}
                 (Some field)) = Ok response ->
       (forall out,
          result (method self username period limit) = Ok out ->
          in_order kept (response.[field].[child]) (Ok out)) /\
       (single (response.[field].[child]) ->
        exists e, result (method self username period limit) = Raise e)) /\
  (forall username tracks track artist album_text album out,
     result (request self
               {[ "method" := JString "user.getRecentTracks";
                  "username" := JString username;
                  "limit" := JInt 1 ]}
               (Some "recenttracks")) = Ok tracks ->
     tracks.["recenttracks"].["track"].[#0] = Ok track ->
     track.["artist"].["#text"] = Ok artist ->
     track.["album"].["#text"] = Ok album_text ->
     result (request self
               {[ "method" := JString "album.getInfo";
                  "username" := JString username;
                  "artist" := artist;
                  "album" := album_text ]}
               (Some "album")) = Ok album ->
     result (now_playing self username) = Ok out ->
     in_order kept (album.["album"].["tracks"].["track"]) (out.["album"].["tracks"]) /\
     (forall t : gmap string json,
        album.["album"].["tracks"].["track"] = Ok (JObject t) ->
        out.["album"].["tracks"] = Ok (JList []))).
Proof.
  intros kept pair in_order single. subst kept pair in_order single. cbn beta.
  split; [| split; [| split; [| split; [| split; [| split]]]]].
  - intros artist response Hresponse. split.
    + intros out H. unfold get_artist in H. invert_mapper H Hresponse.
      split; [| split; [| split]]; field_in_order.
    + intros Hsingle.
      destruct (result (get_artist self artist)) as [out|e] eqn:H; [exfalso | eauto].
      unfold get_artist in H. invert_mapper H Hresponse.
      destruct Hsingle as [Hsingle | [Hsingle | [Hsingle | Hsingle]]];
        single_raises Hsingle.
  - intros username album response Hresponse. split.
    + intros out H. unfold get_album in H. invert_mapper H Hresponse.
      split; field_in_order.
    + intros Hsingle.
      destruct (result (get_album self username album)) as [out|e] eqn:H;
        [exfalso | eauto].
      unfold get_album in H. invert_mapper H Hresponse.
      destruct Hsingle as [Hsingle | Hsingle]; single_raises Hsingle.
  - intros username artist track response Hresponse. split.
    + intros out H. unfold get_track in H. invert_mapper H Hresponse.
      field_in_order.
    + intros Hsingle.
      destruct (result (get_track self username artist track)) as [out|e] eqn:H;
        [exfalso | eauto].
      unfold get_track in H. invert_mapper H Hresponse. single_raises Hsingle.
  - intros tag response Hresponse. split.
    + intros out H. unfold get_tag in H. invert_mapper H Hresponse.
      split; [| split]; field_in_order.
    + intros Hsingle.
      destruct (result (get_tag self tag)) as [out|e] eqn:H; [exfalso | eauto].
      unfold get_tag in H. invert_mapper H Hresponse.
      destruct Hsingle as [Hsingle | [Hsingle | Hsingle]]; single_raises Hsingle.
  - intros username limit response Hresponse. split.
    + intros out H. unfold recent_tracks in H. invert_mapper H Hresponse.
      field_in_order.
    + intros Hsingle.
      destruct (result (recent_tracks self username limit)) as [out|e] eqn:H;
        [exfalso | eauto].
      unfold recent_tracks in H. invert_mapper H Hresponse. single_raises Hsingle.
  - intros method name field child Hin username period limit response Hresponse.
    repeat (apply elem_of_cons in Hin as [[= -> -> -> ->] | Hin]);
      [| | | | | | | apply elem_of_nil in Hin; contradiction].
    all: split;
      [ intros out H;
        unfold top_artists, top_tracks, top_albums, library_artists, library_tracks,
          library_albums, library_tags in H;
        invert_mapper H Hresponse; field_in_order
      | intros Hsingle;
        match goal with
        | |- exists e, ?r = Raise e => destruct r as [out|e] eqn:H; [exfalso | eauto]
        end;
        unfold top_artists, top_tracks, top_albums, library_artists, library_tracks,
          library_albums, library_tags in H;
        invert_mapper H Hresponse; single_raises Hsingle ].
  - intros username tracks track artist album_text album out
      Htracks Htrack Hartist Htext Halbum H.
    invert_now_playing H tracks' Htracks' _track tasks Hpure user track' artist' album' Hresults.
    rewrite Htracks in Htracks'. injection Htracks' as <-.
    repeat match goal with
           | E : idx _ 0 = Ok ?x |- _ =>
               tryif constr_eq x track then fail else (rewrite Htrack in E; injection E as <-)
           end.
    repeat match goal with
           | E : sub (sub (ok_json track) "artist") "#text" = Ok ?x |- _ =>
               tryif constr_eq x artist then fail else (rewrite Hartist in E; injection E as <-)
           | E : sub (sub (ok_json track) "album") "#text" = Ok ?x |- _ =>
               tryif constr_eq x album_text then fail else (rewrite Htext in E; injection E as <-)
           end.
    match goal with
    | E : (if truthy album_text then _ else _) = Ok _ |- _ =>
        destruct (truthy album_text);
        [ rewrite Hartist, Htext in E; cbn [and_then app] in E
        | cbn [app] in E ];
        injection E as <-
    end.
    2: { apply result_gather_ok, mapM_res_length in Hresults.
         discriminate Hresults. }
    apply gather4_inv in Hresults as (_ & _ & _ & Halbum').
    rewrite Halbum in Halbum'. injection Halbum' as <-.
    assert (Hgen : forall v,
      album.["album"].["tracks"].["track"] = Ok v ->
      exists tracks_value,
        out.["album"].["tracks"] = Ok tracks_value /\
        (if is_dict v then Ok (JList [])
         else comprehension
                (fun _track : json =>
                   url ← _track.["url"];
                   name ← _track.["name"];
                   Ok (JObject {[ "url" := url; "name" := name ]}))
                (Ok v)) = Ok tracks_value).
    { intros v Hpath.
      apply sub_ok_inv in Hpath as (tracks_member & Hpath & Hobject).
      apply sub_ok_inv in Hpath as (album_member & Hmember & Htracks_member).
      change (Ok album) with (ok_json album) in Hmember.
      match goal with
      | E : (if truthy album then _ else _) = Ok _ |- _ =>
          rewrite (sub_ok_truthy album "album" _ Hmember) in E;
          rewrite Hmember in E; cbn [and_then] in E;
          invert_statements E; injection E as <-
      end.
      injection H as <-.
      match goal with
      | Ec : get album_member "tracks" = Ok ?c,
        El : (if truthy ?c then _ else Ok false) = Ok ?listed,
        Et : (if ?listed then _ else Ok (JList [])) = Ok ?tracks_value |- _ =>
          exists tracks_value; split; [reflexivity |];
          rename Ec into Hc; rename El into Hlisted; rename Et into Htracks_value
      end.
      apply get_ok_inv in Hc as (m & -> & ->).
      assert (Hm : m !! "tracks" = Some tracks_member).
      { cbn [sub ok_json and_then getitem] in Htracks_member.
        destruct (m !! "tracks");
          [injection Htracks_member as ->; reflexivity | discriminate Htracks_member]. }
      rewrite Hm in Hlisted. cbn [default from_option id] in Hlisted.
      rewrite (sub_ok_truthy tracks_member "track" v Hobject) in Hlisted.
      rewrite Htracks_member in Hlisted, Htracks_value.
      change (Ok tracks_member) with (ok_json tracks_member) in Hlisted, Htracks_value.
      rewrite Hobject in Hlisted, Htracks_value. cbn [and_then] in Hlisted.
      injection Hlisted as <-.
      destruct (is_dict v); cbn [negb] in Htracks_value; exact Htracks_value. }
    split.
    + intros l Hl. destruct (Hgen _ Hl) as (tracks_value & -> & Hvalue).
      cbn [is_dict] in Hvalue.
      eapply (comprehension_in_order _ _ _ _) in Hvalue as (records & -> & Hall);
        [ exists records; split; [reflexivity | exact Hall] | entry_kept | reflexivity ].
    + intros t Ht. destruct (Hgen _ Ht) as (tracks_value & -> & Hvalue).
      cbn [is_dict] in Hvalue. injection Hvalue as <-. reflexivity.
Qed.

Lemma repeated_field_projection_witness :
  (exists out,
     result (get_artist tagged_upstream "band") = Ok out /\
     exists records,
       out.["tags"] = Ok (JList records) /\
       Forall2 (fun tag record : json =>
           exists name url,
             tag.["name"] = Ok name /\ tag.["url"] = Ok url /\
             record = JObject {[ "name" := name; "url" := url ]})
         [rock; indie] records) /\
  (exists e, result (get_artist single_tag_upstream "band") = Raise e) /\
  (exists out,
     result (top_artists (answering top_artists_body) "alice" "7day" 5) = Ok out /\
     exists records,
       Ok out = Ok (JList records) /\
       Forall2 (fun x record : json =>
           exists name url,
             x.["name"] = Ok name /\ x.["url"] = Ok url /\
             record.["name"] = Ok name /\ record.["url"] = Ok url)
         [top_artist "a" "123"; top_artist "b" "45"; top_artist "c" "45";
          top_artist "d" "7"; top_artist "e" "0"] records) /\
  (exists out,
     result (now_playing single_track_upstream "alice") = Ok out /\
     out.["album"].["tracks"] = Ok (JList [])).
Proof.
  split; [| split; [| split]].
  - destruct (result (get_artist tagged_upstream "band")) as [out|e] eqn:Hout;
      [| vm_compute in Hout; discriminate Hout].
    exists out. split; [reflexivity |].
    assert (Hresponse :
      result (request tagged_upstream
                {[ "method" := JString "artist.getInfo"; "artist" := JString "band" ]}
                (Some "artist"))
      = Ok (artist_body (JObject {[ "tag" := JList [rock; indie] ]})))
      by (vm_compute; reflexivity).
    apply (proj1 (proj1 (proj1 (repeated_field_projection tagged_upstream) "band"
                           (artist_body (JObject {[ "tag" := JList [rock; indie] ]}))
                           Hresponse)
                    out Hout) [rock; indie]).
    vm_compute. reflexivity.
  - assert (Hresponse :
      result (request single_tag_upstream
                {[ "method" := JString "artist.getInfo"; "artist" := JString "band" ]}
                (Some "artist"))
      = Ok (artist_body (JObject {[ "tag" := rock ]})))
      by (vm_compute; reflexivity).
    apply (proj2 (proj1 (repeated_field_projection single_tag_upstream) "band"
                    (artist_body (JObject {[ "tag" := rock ]})) Hresponse)).
    left. exists {[ "name" := JString "rock"; "url" := JString "u" ]}.
    split; [vm_compute; reflexivity |].
    intros Hempty.
    apply (f_equal (fun m : gmap string json => m !! "name")) in Hempty.
    vm_compute in Hempty. discriminate Hempty.
  - destruct (result (top_artists (answering top_artists_body) "alice" "7day" 5))
      as [out|e] eqn:Hout; [| vm_compute in Hout; discriminate Hout].
    exists out. split; [reflexivity |].
    assert (Hresponse :
      result (request (answering top_artists_body)
                {[ "method" := JString "user.getTopArtists";
                   "username" := JString "alice";
                   "period" := JString "7day";
                   "limit" := JInt 5 ]}
                (Some "topartists"))
      = Ok top_artists_body)
      by (vm_compute; reflexivity).
    apply (proj1 (proj1 (proj2 (proj2 (proj2 (proj2 (proj2
             (repeated_field_projection (answering top_artists_body)))))))
             top_artists "user.getTopArtists" "topartists" "artist"
             (list_elem_of_here _ _)
             "alice" "7day" 5%Z top_artists_body Hresponse)
             out Hout).
    vm_compute. reflexivity.
  - destruct (result (now_playing single_track_upstream "alice")) as [out|e] eqn:Hout;
      [| vm_compute in Hout; discriminate Hout].
    exists out. split; [reflexivity |].
    refine (proj2 (proj2 (proj2 (proj2 (proj2 (proj2 (proj2
              (repeated_field_projection single_track_upstream)))))) "alice"
              (recent_body "lp" None) (recent_track "lp" None) (JString "band") (JString "lp")
              (album_body (JObject {[ "track" := JObject {[
                 "name" := JString "song";
                 "url" := JString "http://last.fm/music/band/_/song" ]} ]}))
              out _ _ _ _ _ Hout)
              {[ "name" := JString "song";
                 "url" := JString "http://last.fm/music/band/_/song" ]} _);
      vm_compute; reflexivity.
Defined.

(** * Further properties of the client *)

(** ** The request executor, continued *)

Lemma is_ok_inv {A} (r : res A) : is_ok r = true -> exists a, r = Ok a.
Proof. destruct r as [a|e]; [eauto | discriminate]. Qed.

Lemma sent_await {A B} (m : io A) (k : A -> io B) :
  sent (await m k) =
  sent m ++ match result m with Ok a => sent (k a) | Raise _ => [] end.
Proof. unfold await. destruct (result m); cbn [sent]; [reflexivity | symmetry; apply app_nil_r]. Qed.

(** X1: [request] sends exactly one GET, to the fixed endpoint.  Its query
    holds every entry of the request, which take precedence, then the API
    key as the environment has it ([None] when the variable is unset) and
    the format selector [json], and nothing else. *)
Theorem request_sends_one_query self req paramater :
  exists query,
    sent (request self req paramater) = [(LastFMurl, query)] /\
    (forall k v, req !! k = Some v -> query !! k = Some v) /\
    (req !! "api_key" = None ->
       query !! "api_key" =
       Some (match environ self !! "LASTFM_APIKEY" with
             | Some key => JString key
             | None => JNull
             end)) /\
    (req !! "format" = None -> query !! "format" = Some (JString "json")) /\
    (forall k, req !! k = None -> k <> "api_key" -> k <> "format" -> query !! k = None).
Proof.
  exists (params self req). split; [apply sent_request |].
  unfold params, getenv. repeat split.
  - intros k v Hk. apply lookup_union_Some_l, Hk.
  - intros Hk. rewrite lookup_union_r by exact Hk. apply lookup_insert_eq.
  - intros Hk. rewrite lookup_union_r by exact Hk.
    rewrite lookup_insert_ne by discriminate. apply lookup_singleton_eq.
  - intros k Hk Hkey Hformat. rewrite lookup_union_r by exact Hk.
    rewrite lookup_insert_ne by congruence. apply lookup_singleton_ne. congruence.
Qed.

(** X2: a decoded body that is an object with the key [errors] never
    makes [request] return: it raises the mapped [LastFMError], or the
    [KeyError] or [TypeError] of the table lookup, whatever field is
    required. *)
Theorem request_errors_key_never_returns self req paramater (body : gmap string json) :
  session_get self LastFMurl (params self req) = Ok (JObject body) ->
  is_Some (body !! "errors") ->
  exists e,
    result (request self req paramater) = Raise e /\
    (e = KeyError \/ e = TypeError \/
     exists code msg, LASTFM_ERRORS !! code = Some msg /\ e = LastFMError ("Error: " +:+ msg)).
Proof.
  intros Hget Herrors.
  rewrite result_request, Hget. unfold check. py_step.
  rewrite bool_decide_true by assumption. py_step.
  assert (Hat : forall n : Z, exists e,
    and_then (match LASTFM_ERRORS !! n with Some x => Ok x | None => Raise KeyError end)
      (fun msg => Raise (LastFMError ("Error: " +:+ msg))) = Raise (A:=json) e /\
    (e = KeyError \/ e = TypeError \/
     exists code msg, LASTFM_ERRORS !! code = Some msg /\ e = LastFMError ("Error: " +:+ msg))).
  { intros n. destruct (LASTFM_ERRORS !! n) as [msg|] eqn:Hn; cbn [and_then]; eauto 8. }
  destruct (default JNull (body !! "error")) as [|b|n|f|s|l|m];
    cbn [getitem_int_keys and_then]; eauto.
  destruct (float_integral f); cbn [and_then]; eauto.
Qed.

Lemma request_errors_key_never_returns_witness :
  exists e,
    result (request (answering (JObject {[ "errors" := JList []; "error" := JString "6" ]}))
              ∅ None) = Raise e /\
    (e = KeyError \/ e = TypeError \/
     exists code msg, LASTFM_ERRORS !! code = Some msg /\ e = LastFMError ("Error: " +:+ msg)).
Proof.
  apply (request_errors_key_never_returns
           (answering (JObject {[ "errors" := JList []; "error" := JString "6" ]}))
           ∅ None {[ "errors" := JList []; "error" := JString "6" ]}).
  - reflexivity.
  - vm_compute. eauto.
Defined.

(** X3: whatever [request] returns under a required (non-empty) field
    name is the decoded body itself, and that body is an object without
    the key [errors] in which the field is present and truthy. *)
Theorem request_returns_checked_body self req p data :
  p <> "" ->
  result (request self req (Some p)) = Ok data ->
  session_get self LastFMurl (params self req) = Ok data /\
  exists (body : gmap string json) v,
    data = JObject body /\ body !! "errors" = None /\
    body !! p = Some v /\ truthy v = true.
Proof.
  intros Hp H. rewrite result_request in H.
  apply and_then_ok_inv in H as (data' & Hget & H).
  unfold check in H. apply and_then_ok_inv in H as (has_errors & Hhas & H).
  destruct has_errors.
  { invert_statements H. discriminate H. }
  rewrite (truthy_string_nonempty p Hp) in H.
  apply and_then_ok_inv in H as (field & Hfield & H).
  destruct (truthy field) eqn:Htruthy; cbn [negb] in H; [| discriminate H].
  injection H as <-. split; [exact Hget |].
  apply get_ok_inv in Hfield as (body & -> & ->).
  cbn [contains] in Hhas. injection Hhas as Hhas.
  apply bool_decide_eq_false in Hhas.
  destruct (body !! p) as [v|] eqn:Hv; [| discriminate Htruthy].
  exists body, v. repeat split; try assumption.
  destruct (body !! "errors") eqn:He; [| reflexivity]. exfalso. apply Hhas. eauto.
Qed.

Lemma request_returns_checked_body_witness :
  session_get (answering (JObject {[ "user" := JObject {[ "name" := JString "alice" ]} ]}))
    LastFMurl
    (params (answering (JObject {[ "user" := JObject {[ "name" := JString "alice" ]} ]})) ∅)
  = Ok (JObject {[ "user" := JObject {[ "name" := JString "alice" ]} ]}) /\
  exists (body : gmap string json) v,
    JObject {[ "user" := JObject {[ "name" := JString "alice" ]} ]} = JObject body /\
    body !! "errors" = None /\ body !! "user" = Some v /\ truthy v = true.
Proof.
  apply (request_returns_checked_body
           (answering (JObject {[ "user" := JObject {[ "name" := JString "alice" ]} ]}))
           ∅ "user" (JObject {[ "user" := JObject {[ "name" := JString "alice" ]} ]})).
  - discriminate.
  - reflexivity.
Defined.

(** X4: a decoded body that is no object.  On [None], a boolean or a
    number the membership test raises [TypeError].  A list or a string
    passes the test when it does not contain ["errors"] (as an element, as
    a substring); it is then returned as it is when no field is required,
    and makes [request] raise [AttributeError] otherwise, as it does when
    it contains ["errors"]. *)
Theorem request_non_object_body self req paramater data :
  session_get self LastFMurl (params self req) = Ok data ->
  is_dict data = false ->
  let required :=
    match paramater with Some p => negb (String.eqb p "") | None => false end in
  result (request self req paramater) =
  match data with
  | JList l =>
      if existsb (fun x => eq_str x "errors") l || required
      then Raise AttributeError else Ok data
  | JString s =>
      if substring_of "errors" s || required then Raise AttributeError else Ok data
  | _ => Raise TypeError
  end.
Proof.
  intros Hget Hdict required. subst required.
  rewrite result_request, Hget. unfold check.
  destruct data as [|b|n|f|s|l|m]; try discriminate Hdict; try reflexivity;
    cbn [and_then contains].
  - destruct (substring_of "errors" s); [reflexivity |].
    destruct paramater as [p|]; [| reflexivity].
    cbn [truthy orb]. destruct (negb (p =? "")%string); reflexivity.
  - replace (existsb _ l) with (existsb (fun x => eq_str x "errors") l) by reflexivity.
    destruct (existsb _ l); [reflexivity |].
    destruct paramater as [p|]; [| reflexivity].
    cbn [truthy orb]. destruct (negb (p =? "")%string); reflexivity.
Qed.

Lemma request_non_object_body_witness :
  result (request (answering (JList [JString "a"])) ∅ (Some "user")) = Raise AttributeError /\
  result (request (answering (JList [JString "a"])) ∅ None) = Ok (JList [JString "a"]) /\
  result (request (answering JNull) ∅ None) = Raise TypeError.
Proof.
  split; [| split].
  - exact (request_non_object_body (answering (JList [JString "a"])) ∅ (Some "user")
             (JList [JString "a"]) eq_refl eq_refl).
  - exact (request_non_object_body (answering (JList [JString "a"])) ∅ None
             (JList [JString "a"]) eq_refl eq_refl).
  - exact (request_non_object_body (answering JNull) ∅ None JNull eq_refl eq_refl).
Defined.

(** ** Failures of the session *)

(** X5: when the session raises on every GET, each public method raises
    that same error: nothing is caught, retried or turned into
    [LastFMError]. *)
Theorem failed_get_propagates self e :
  (forall query, session_get self LastFMurl query = Raise e) ->
  forall (username artist album track tag period : string) (limit : Z),
    result (profile self username) = Raise e /\
    result (now_playing self username) = Raise e /\
    result (get_artist self artist) = Raise e /\
    result (recent_tracks self username limit) = Raise e /\
    result (get_album self username album) = Raise e /\
    result (top_artists self username period limit) = Raise e /\
    result (top_tracks self username period limit) = Raise e /\
    result (top_albums self username period limit) = Raise e /\
    result (get_track self username artist track) = Raise e /\
    result (get_tag self tag) = Raise e /\
    result (library_artists self username period limit) = Raise e /\
    result (library_tracks self username period limit) = Raise e /\
    result (library_albums self username period limit) = Raise e /\
    result (library_tags self username period limit) = Raise e /\
    result (library self username) = Raise e.
Proof.
  intros Hget username artist album track tag period limit.
  assert (Hrequest : forall req paramater, result (request self req paramater) = Raise e)
    by (intros; rewrite result_request, Hget; reflexivity).
  repeat split;
    try (unfold profile, now_playing, get_artist, recent_tracks, get_album, top_artists,
           top_tracks, top_albums, get_track, get_tag, library_artists, library_tracks,
           library_albums, library_tags;
         rewrite result_await, Hrequest; reflexivity).
  unfold library. cbn [app]. rewrite result_await.
  destruct (result (gather self _)) as [values|e'] eqn:Hresults.
  - apply result_gather_ok in Hresults. rewrite mapM_res_cons in Hresults.
    unfold library_artists at 1 in Hresults.
    rewrite result_await, Hrequest in Hresults. discriminate Hresults.
  - apply result_gather_raise in Hresults as (task & Hin & Htask).
    repeat (apply elem_of_cons in Hin as [-> | Hin]);
      [| | | | apply elem_of_nil in Hin; contradiction];
      unfold library_artists, library_albums, library_tracks, library_tags in Htask;
      rewrite result_await, Hrequest in Htask; symmetry; exact Htask.
Qed.

Lemma failed_get_propagates_witness :
  result (profile unreachable "alice") = Raise TransportError /\
  result (library unreachable "alice") = Raise TransportError.
Proof.
  destruct (failed_get_propagates unreachable TransportError (fun _ => eq_refl)
              "alice" "band" "lp" "song" "rock" "overall" 10)
    as (Hprofile & _ & _ & _ & _ & _ & _ & _ & _ & _ & _ & _ & _ & _ & Hlibrary).
  split; assumption.
Defined.

(** ** The library snapshot *)

(** A method that awaits one request and reshapes its answer sends that
    request and no other. *)
Lemma sent_await_request_lift {B} self req paramater (k : json -> res B) :
  sent (await (request self req paramater) (fun response => lift (k response)))
  = [(LastFMurl, params self req)].
Proof. rewrite sent_await_lift. apply sent_request. Qed.

(** X6: [library] starts its four list queries, for the period [overall]
    and the default limit, in the order artists, albums, tracks, tags, and
    all four are sent however each of them ends.  It returns exactly when
    all four return, and then the record holds their four results; if one
    of them raises, [library] raises and returns no partial record. *)
Theorem library_gathers_four self username :
  sent (library self username) =
    [ (LastFMurl, params self {[ "method" := JString "user.getTopArtists";
                                "username" := JString username;
                                "period" := JString "overall";
                                "limit" := JInt 1000 ]});
      (LastFMurl, params self {[ "method" := JString "user.getTopAlbums";
                                "username" := JString username;
                                "period" := JString "overall";
                                "limit" := JInt 1000 ]});
      (LastFMurl, params self {[ "method" := JString "user.getTopTracks";
                                "username" := JString username;
                                "period" := JString "overall";
                                "limit" := JInt 1000 ]});
      (LastFMurl, params self {[ "method" := JString "user.getTopTags";
                                "username" := JString username;
                                "period" := JString "overall";
                                "limit" := JInt 1000 ]}) ] /\
  forall out,
    result (library self username) = Ok out <->
    exists artists albums tracks tags,
      result (library_artists self username "overall" 1000) = Ok artists /\
      result (library_albums self username "overall" 1000) = Ok albums /\
      result (library_tracks self username "overall" 1000) = Ok tracks /\
      result (library_tags self username "overall" 1000) = Ok tags /\
      out = JObject {[ "artists" := artists;
                       "albums" := albums;
                       "tracks" := tracks;
                       "tags" := tags ]}.
Proof.
  split.
  - unfold library. cbn [app]. rewrite sent_await. unfold gather at 1. cbn [sent].
    cbn [fmap list_fmap mjoin list_join].
    unfold library_artists at 1, library_albums at 1, library_tracks at 1, library_tags at 1.
    rewrite !sent_await_request_lift. cbn [app].
    destruct (result (gather _ _)); cbn [sent lift]; reflexivity.
  - intros out. unfold library. cbn [app]. unfold default_limit.
    rewrite result_await. split.
    + intros H.
      destruct (result (gather self _)) as [results|] eqn:Hresults; [| discriminate H].
      cbn [result lift] in H.
      destruct results as [|artists [|albums [|tracks [|tags [|]]]]]; try discriminate H.
      apply gather4_inv in Hresults as (Hartists & Halbums & Htracks & Htags).
      injection H as <-. exists artists, albums, tracks, tags.
      split; [exact Hartists |]. split; [exact Halbums |].
      split; [exact Htracks |]. split; [exact Htags | reflexivity].
    + intros (artists & albums & tracks & tags & Hartists & Halbums & Htracks & Htags & ->).
      match goal with
      | |- context [result (gather self ?tasks)] =>
          assert (Hresults : result (gather self tasks) = Ok [artists; albums; tracks; tags])
            by (apply result_gather_ok; rewrite !mapM_res_cons, mapM_res_nil,
                  Hartists, Halbums, Htracks, Htags; reflexivity)
      end.
      rewrite Hresults. reflexivity.
Qed.

(** ** The requests of [now_playing] *)

Lemma sent_lift_nil {A B} (m : io A) (k : A -> res B) :
  match result m with Ok a => sent (lift (k a)) | Raise _ => [] end = [].
Proof. destruct (result m); reflexivity. Qed.

(** X7: [now_playing] first asks for the most recent track and sends
    nothing more when that request fails or answers no first track (an
    empty list raises [IndexError]).  Otherwise it starts the queries for
    the user, the track and the artist, and the one for the album only
    when the track names a non-empty album. *)
Theorem now_playing_requests self username :
  (forall e,
     result (request self
               {[ "method" := JString "user.getRecentTracks";
                  "username" := JString username;
                  "limit" := JInt 1 ]}
               (Some "recenttracks")) = Raise e ->
     result (now_playing self username) = Raise e /\
     length (sent (now_playing self username)) = 1%nat) /\
  (forall tracks e,
     result (request self
               {[ "method" := JString "user.getRecentTracks";
                  "username" := JString username;
                  "limit" := JInt 1 ]}
               (Some "recenttracks")) = Ok tracks ->
     tracks.["recenttracks"].["track"].[#0] = Raise e ->
     result (now_playing self username) = Raise e /\
     length (sent (now_playing self username)) = 1%nat) /\
  (forall tracks track artist name text,
     result (request self
               {[ "method" := JString "user.getRecentTracks";
                  "username" := JString username;
                  "limit" := JInt 1 ]}
               (Some "recenttracks")) = Ok tracks ->
     tracks.["recenttracks"].["track"].[#0] = Ok track ->
     track.["artist"].["#text"] = Ok artist ->
     track.["name"] = Ok name ->
     track.["album"].["#text"] = Ok text ->
     sent (now_playing self username) =
       [ (LastFMurl, params self {[ "method" := JString "user.getRecentTracks";
                                   "username" := JString username;
                                   "limit" := JInt 1 ]});
         (LastFMurl, params self {[ "method" := JString "user.getInfo";
                                   "username" := JString username ]});
         (LastFMurl, params self {[ "method" := JString "track.getInfo";
                                   "username" := JString username;
                                   "artist" := artist;
                                   "track" := name ]});
         (LastFMurl, params self {[ "method" := JString "artist.getInfo";
                                   "username" := JString username;
                                   "artist" := artist ]}) ]
       ++ (if truthy text
           then [ (LastFMurl, params self {[ "method" := JString "album.getInfo";
                                            "username" := JString username;
                                            "artist" := artist;
                                            "album" := text ]}) ]
           else [])).
Proof.
  split; [| split].
  - intros e Hrecent. unfold now_playing.
    rewrite result_await, sent_await, sent_request, Hrecent. split; reflexivity.
  - intros tracks e Hrecent Hfirst. unfold now_playing.
    rewrite result_await, sent_await, sent_request, Hrecent.
    rewrite result_await, sent_await. cbn [result lift sent].
    rewrite Hfirst. cbn [and_then]. split; reflexivity.
  - intros tracks track artist name text Hrecent Hfirst Hartist Hname Htext.
    unfold now_playing.
    rewrite sent_await, sent_request, Hrecent, sent_await. cbn [result lift sent].
    rewrite Hfirst. cbn [and_then]. rewrite Hartist, Hname. cbn [and_then].
    rewrite Htext. cbn [and_then].
    destruct (truthy text); cbn [and_then app]; rewrite ?Hartist, ?Htext; cbn [and_then app];
      rewrite sent_await, sent_lift_nil; unfold gather; cbn [sent];
      cbn [fmap list_fmap mjoin list_join]; rewrite !sent_request; reflexivity.
Qed.

Lemma now_playing_requests_witness :
  length (sent (now_playing single_track_upstream "alice")) = 5%nat /\
  length (sent (now_playing (upstream "" None "" "" (JObject {[ "track" := JList [] ]})) "alice"))
    = 4%nat /\
  result (now_playing (canned {[ "user.getRecentTracks" :=
            JObject {[ "recenttracks" := JObject {[ "track" := JList [] ]} ]} ]}) "alice")
    = Raise IndexError.
Proof.
  split; [| split].
  - rewrite (proj2 (proj2 (now_playing_requests single_track_upstream "alice"))
               (recent_body "lp" None) (recent_track "lp" None)
               (JString "band") (JString "song") (JString "lp"));
      reflexivity.
  - rewrite (proj2 (proj2 (now_playing_requests
                             (upstream "" None "" "" (JObject {[ "track" := JList [] ]}))
                             "alice"))
               (recent_body "" None) (recent_track "" None)
               (JString "band") (JString "song") (JString ""));
      reflexivity.
  - apply (proj1 (proj2 (now_playing_requests _ "alice"))
             (JObject {[ "recenttracks" := JObject {[ "track" := JList [] ]} ]}));
      reflexivity.
Defined.

(** ** The record of [now_playing] *)

(** What [request] returns under a required field is an object that has
    the field. *)
Lemma request_ok_field self req p data :
  p <> "" ->
  result (request self req (Some p)) = Ok data ->
  exists (body : gmap string json) v, data = JObject body /\ body !! p = Some v.
Proof.
  intros Hp H. rewrite result_request in H.
  apply and_then_ok_inv in H as (data' & _ & H).
  unfold check in H. apply and_then_ok_inv in H as (has_errors & _ & H).
  destruct has_errors.
  { invert_statements H. discriminate H. }
  rewrite (truthy_string_nonempty p Hp) in H.
  apply and_then_ok_inv in H as (field & Hfield & H).
  destruct (truthy field) eqn:Htruthy; cbn [negb] in H; [| discriminate H].
  injection H as <-.
  apply get_ok_inv in Hfield as (body & -> & ->).
  destruct (body !! p) as [v|] eqn:Hv; [eauto | discriminate Htruthy].
Qed.

(** X8: every record [now_playing] returns has the eight keys of a track
    with its artist, album and user: the album is never left out, and the
    track it was built from named a non-empty album. *)
Theorem now_playing_record_keys self username out :
  result (now_playing self username) = Ok out ->
  (exists m : gmap string json,
     out = JObject m /\
     dom m = ({[ "url"; "name"; "image"; "plays"; "playing"; "artist"; "album"; "user" ]}
              : gset string)) /\
  exists tracks text,
    result (request self
              {[ "method" := JString "user.getRecentTracks";
                 "username" := JString username;
                 "limit" := JInt 1 ]}
              (Some "recenttracks")) = Ok tracks /\
    tracks.["recenttracks"].["track"].[#0].["album"].["#text"] = Ok text /\
    truthy text = true.
Proof.
  intros H.
  invert_now_playing H tracks Htracks _track tasks Hpure user track artist album Hresults.
  injection H as <-.
  match goal with
  | Etasks : (if truthy ?text then _ else _) = Ok _,
    Etext : sub (sub (ok_json ?tr) "album") "#text" = Ok ?text,
    Efirst : idx _ 0 = Ok ?tr |- _ =>
      destruct (truthy text) eqn:Htruthy;
      [ invert_statements Etasks; injection Etasks as <-
      | injection Etasks as <-;
        apply result_gather_ok, mapM_res_length in Hresults; discriminate Hresults ];
      assert (Htext : tracks.["recenttracks"].["track"].[#0].["album"].["#text"] = Ok text)
        by (rewrite Efirst; exact Etext)
  end.
  cbn [app] in Hresults. apply gather4_inv in Hresults as (_ & _ & _ & Halbum).
  apply request_ok_field in Halbum as (body & member & -> & Hv); [| discriminate].
  split; [| eauto].
  match goal with
  | E : (if truthy (JObject body) then _ else _) = Ok _ |- _ =>
      replace (truthy (JObject body)) with true in E
        by (symmetry; apply (sub_ok_truthy (JObject body) "album" member);
            cbn [sub ok_json and_then getitem]; rewrite Hv; reflexivity);
      invert_statements E; injection E as <-
  end.
  eexists. split; [reflexivity |].
  rewrite !dom_insert_L, dom_singleton_L. set_solver.
Qed.

Lemma now_playing_record_keys_witness :
  exists out,
    result (now_playing single_track_upstream "alice") = Ok out /\
    exists m : gmap string json,
      out = JObject m /\
      dom m = ({[ "url"; "name"; "image"; "plays"; "playing"; "artist"; "album"; "user" ]}
               : gset string).
Proof.
  destruct (is_ok_inv (result (now_playing single_track_upstream "alice")) eq_refl)
    as [out Hout].
  exists out. split; [exact Hout |].
  exact (proj1 (now_playing_record_keys single_track_upstream "alice" out Hout)).
Defined.

(** ** Top tracks and top albums *)

(** An entry of a top list that names its artist: what [top_tracks] and
    [top_albums] read of it, and the record they build. *)
Lemma top_item_maps :
  forall (item record : json),
    (exists (a last artist : gmap string json) (url name text artist_url artist_name : json)
            (sizes : list json) (k : N),
        item = JObject a /\
        a !! "url" = Some url /\
        a !! "name" = Some name /\
        a !! "image" = Some (JList (sizes ++ [JObject last])) /\
        last !! "#text" = Some text /\
        a !! "playcount" = Some (JString (numeral k)) /\
        (String.length (numeral k) <= int_max_str_digits)%nat /\
        a !! "artist" = Some (JObject artist) /\
        artist !! "url" = Some artist_url /\
        artist !! "name" = Some artist_name /\
        record = JObject {[ "url" := url;
                            "name" := name;
                            "image" := or_ text JNull;
                            "plays" := JInt (Z.of_N k);
                            "artist" := JObject {[ "url" := artist_url;
                                                   "name" := artist_name ]} ]}) ->
    (url ← item.["url"];
     name ← item.["name"];
     image ← or_None item.["image"].[#-1].["#text"];
     plays ← int_ item.["playcount"];
     artist_url ← item.["artist"].["url"];
     artist_name ← item.["artist"].["name"];
     Ok (JObject {[
       "url" := url;
       "name" := name;
       "image" := image;
       "plays" := plays;
       "artist" := JObject {[ "url" := artist_url; "name" := artist_name ]} ]}))
    = Ok record.
Proof.
  intros item record
    (a & last & artist & url & name & text & artist_url & artist_name & sizes & k
     & -> & Hurl & Hname & Himage & Htext & Hplays & Hlen & Hartist & Haurl & Haname & ->).
  py_step. rewrite Hurl, Hname, Himage. py_step.
  rewrite seq_index_last. py_step. rewrite Htext, Hplays. py_step.
  change (and_then (and_then (int (JString (numeral k))) (fun n => Ok (JInt n))) ?k0)
    with (and_then (int_ (Ok (JString (numeral k)))) k0).
  rewrite (int_numeral k Hlen). py_step. rewrite Hartist. py_step.
  rewrite Haurl, Haname. reflexivity.
Qed.

(** X9: on a payload whose [toptracks.track] member is a list of [n] track
    objects, each with url, name, image list, a decimal play count and an
    artist with url and name, [top_tracks] returns [n] records in the
    order of the payload; each takes the URL of the last image ([None] if
    empty), the play count as an integer and only the url and name of the
    artist. *)
Theorem top_tracks_in_order self username period limit
    (body toptracks : gmap string json) (tracks out : list json) :
  session_get self LastFMurl
    (params self {[ "method" := JString "user.getTopTracks";
                    "username" := JString username;
                    "period" := JString period;
                    "limit" := JInt limit ]}) = Ok (JObject body) ->
  body !! "errors" = None ->
  body !! "toptracks" = Some (JObject toptracks) ->
  toptracks !! "track" = Some (JList tracks) ->
  Forall2 (fun item record : json =>
      exists (a last artist : gmap string json) (url name text artist_url artist_name : json)
             (sizes : list json) (k : N),
        item = JObject a /\
        a !! "url" = Some url /\
        a !! "name" = Some name /\
        a !! "image" = Some (JList (sizes ++ [JObject last])) /\
        last !! "#text" = Some text /\
        a !! "playcount" = Some (JString (numeral k)) /\
        (String.length (numeral k) <= int_max_str_digits)%nat /\
        a !! "artist" = Some (JObject artist) /\
        artist !! "url" = Some artist_url /\
        artist !! "name" = Some artist_name /\
        record = JObject {[ "url" := url;
                            "name" := name;
                            "image" := or_ text JNull;
                            "plays" := JInt (Z.of_N k);
                            "artist" := JObject {[ "url" := artist_url;
                                                   "name" := artist_name ]} ]})
    tracks out ->
  result (top_tracks self username period limit) = Ok (JList out) /\
  length out = length tracks.
Proof.
  intros Hget Herrors Htop Hlist Hall.
  split; [| symmetry; exact (Forall2_length _ _ _ Hall)].
  unfold top_tracks. rewrite result_await.
  rewrite (result_request_field self _ "toptracks" body toptracks
             ltac:(discriminate) Hget Herrors Htop
             ltac:(intros ->; rewrite lookup_empty in Hlist; discriminate)).
  unfold comprehension. py_step. rewrite Htop. py_step. rewrite Hlist. py_step.
  cbn [iter and_then].
  match goal with
  | |- and_then (mapM ?f tracks) _ = _ =>
      assert (Hmap : mapM f tracks = Ok out); [| rewrite Hmap; reflexivity]
  end.
  apply mapM_res_Forall2.
  eapply Forall2_impl; [exact Hall |]. intros item record. apply top_item_maps.
Qed.

(** X10: the same for [top_albums], on a payload whose [topalbums.album]
    member is a list of album objects. *)
Theorem top_albums_in_order self username period limit
    (body topalbums : gmap string json) (albums out : list json) :
  session_get self LastFMurl
    (params self {[ "method" := JString "user.getTopAlbums";
                    "username" := JString username;
                    "period" := JString period;
                    "limit" := JInt limit ]}) = Ok (JObject body) ->
  body !! "errors" = None ->
  body !! "topalbums" = Some (JObject topalbums) ->
  topalbums !! "album" = Some (JList albums) ->
  Forall2 (fun item record : json =>
      exists (a last artist : gmap string json) (url name text artist_url artist_name : json)
             (sizes : list json) (k : N),
        item = JObject a /\
        a !! "url" = Some url /\
        a !! "name" = Some name /\
        a !! "image" = Some (JList (sizes ++ [JObject last])) /\
        last !! "#text" = Some text /\
        a !! "playcount" = Some (JString (numeral k)) /\
        (String.length (numeral k) <= int_max_str_digits)%nat /\
        a !! "artist" = Some (JObject artist) /\
        artist !! "url" = Some artist_url /\
        artist !! "name" = Some artist_name /\
        record = JObject {[ "url" := url;
                            "name" := name;
                            "image" := or_ text JNull;
                            "plays" := JInt (Z.of_N k);
                            "artist" := JObject {[ "url" := artist_url;
                                                   "name" := artist_name ]} ]})
    albums out ->
  result (top_albums self username period limit) = Ok (JList out) /\
  length out = length albums.
Proof.
  intros Hget Herrors Htop Hlist Hall.
  split; [| symmetry; exact (Forall2_length _ _ _ Hall)].
  unfold top_albums. rewrite result_await.
  rewrite (result_request_field self _ "topalbums" body topalbums
             ltac:(discriminate) Hget Herrors Htop
             ltac:(intros ->; rewrite lookup_empty in Hlist; discriminate)).
  unfold comprehension. py_step. rewrite Htop. py_step. rewrite Hlist. py_step.
  cbn [iter and_then].
  match goal with
  | |- and_then (mapM ?f albums) _ = _ =>
      assert (Hmap : mapM f albums = Ok out); [| rewrite Hmap; reflexivity]
  end.
  apply mapM_res_Forall2.
  eapply Forall2_impl; [exact Hall |]. intros item record. apply top_item_maps.
Qed.

Lemma top_item_entry name (k : N) :
  (String.length (numeral k) <= int_max_str_digits)%nat ->
  exists (a last artist : gmap string json) (url name' text artist_url artist_name : json)
         (sizes : list json) (k' : N),
    top_item name (numeral k) = JObject a /\
    a !! "url" = Some url /\
    a !! "name" = Some name' /\
    a !! "image" = Some (JList (sizes ++ [JObject last])) /\
    last !! "#text" = Some text /\
    a !! "playcount" = Some (JString (numeral k')) /\
    (String.length (numeral k') <= int_max_str_digits)%nat /\
    a !! "artist" = Some (JObject artist) /\
    artist !! "url" = Some artist_url /\
    artist !! "name" = Some artist_name /\
    item_summary name (Z.of_N k) =
      JObject {[ "url" := url;
                 "name" := name';
                 "image" := or_ text JNull;
                 "plays" := JInt (Z.of_N k');
                 "artist" := JObject {[ "url" := artist_url; "name" := artist_name ]} ]}.
Proof.
  intros Hlen.
  exists {[ "url" := JString ("http://last.fm/music/band/" +:+ name);
            "name" := JString name;
            "image" := images ("http://img/" +:+ name);
            "playcount" := JString (numeral k);
            "artist" := JObject {[
              "url" := JString "http://last.fm/music/band";
              "name" := JString "band";
              "mbid" := JString "" ]} ]},
         {[ "#text" := JString ("http://img/" +:+ name); "size" := JString "extralarge" ]},
         {[ "url" := JString "http://last.fm/music/band";
            "name" := JString "band";
            "mbid" := JString "" ]},
         (JString ("http://last.fm/music/band/" +:+ name)), (JString name),
         (JString ("http://img/" +:+ name)),
         (JString "http://last.fm/music/band"), (JString "band"),
         [JObject {[ "#text" := JString "http://img/34.png"; "size" := JString "small" ]}],
         k.
  repeat split; try reflexivity; try assumption;
    repeat first [ rewrite lookup_insert_eq; reflexivity
                 | rewrite lookup_insert_ne by discriminate
                 | rewrite lookup_singleton_eq; reflexivity ].
Qed.

Lemma top_tracks_in_order_witness :
  result (top_tracks (canned {[ "user.getTopTracks" := top_tracks_body ]}) "alice" "7day" 2)
  = Ok (JList [ item_summary "song" 31; item_summary "tune" 4 ]) /\
  length [ item_summary "song" 31; item_summary "tune" 4 ] = 2%nat.
Proof.
  apply (top_tracks_in_order
           (canned {[ "user.getTopTracks" := top_tracks_body ]}) "alice" "7day" 2
           {[ "toptracks" := JObject {[ "track" := JList [
                top_item "song" "31"; top_item "tune" "4" ] ]} ]}
           {[ "track" := JList [ top_item "song" "31"; top_item "tune" "4" ] ]}
           [ top_item "song" "31"; top_item "tune" "4" ]
           [ item_summary "song" 31; item_summary "tune" 4 ]).
  - reflexivity.
  - reflexivity.
  - reflexivity.
  - reflexivity.
  - repeat apply List.Forall2_cons; [ .. | apply List.Forall2_nil ].
    + apply (top_item_entry "song" 31%N). apply Nat.leb_le. reflexivity.
    + apply (top_item_entry "tune" 4%N). apply Nat.leb_le. reflexivity.
Defined.

Lemma top_albums_in_order_witness :
  result (top_albums (canned {[ "user.getTopAlbums" := top_albums_body ]}) "alice" "7day" 2)
  = Ok (JList [ item_summary "lp" 200; item_summary "ep" 12 ]) /\
  length [ item_summary "lp" 200; item_summary "ep" 12 ] = 2%nat.
Proof.
  apply (top_albums_in_order
           (canned {[ "user.getTopAlbums" := top_albums_body ]}) "alice" "7day" 2
           {[ "topalbums" := JObject {[ "album" := JList [
                top_item "lp" "200"; top_item "ep" "12" ] ]} ]}
           {[ "album" := JList [ top_item "lp" "200"; top_item "ep" "12" ] ]}
           [ top_item "lp" "200"; top_item "ep" "12" ]
           [ item_summary "lp" 200; item_summary "ep" 12 ]).
  - reflexivity.
  - reflexivity.
  - reflexivity.
  - reflexivity.
  - repeat apply List.Forall2_cons; [ .. | apply List.Forall2_nil ].
    + apply (top_item_entry "lp" 200%N). apply Nat.leb_le. reflexivity.
    + apply (top_item_entry "ep" 12%N). apply Nat.leb_le. reflexivity.
Defined.

(** ** No partial results *)

(** A comprehension stops at the first element whose projection raises. *)
Lemma mapM_res_app_raise {A B} (f : A -> res B) l1 x l2 out e :
  Forall2 (fun a b => f a = Ok b) l1 out ->
  f x = Raise e ->
  mapM f (l1 ++ x :: l2) = Raise e.
Proof.
  intros Hall Hx. induction Hall as [|a b l1 out Hab _ IH]; cbn [app].
  - rewrite mapM_res_cons, Hx. reflexivity.
  - rewrite mapM_res_cons, Hab. cbn [and_then]. rewrite IH. reflexivity.
Qed.

(** X11: a single unusable play count fails the whole of [top_artists],
    whatever was mapped before it and whatever follows: the call raises
    [KeyError] when the entry has no [playcount], [TypeError] when it is
    [None] and [ValueError] when it is the empty string; no record is
    returned for the entries before it, and no zero stands in. *)
Theorem top_artists_bad_playcount self username period limit
    (body topartists bad last : gmap string json) (good mapped rest sizes : list json)
    (url name text : json) :
  session_get self LastFMurl
    (params self {[ "method" := JString "user.getTopArtists";
                    "username" := JString username;
                    "period" := JString period;
                    "limit" := JInt limit ]}) = Ok (JObject body) ->
  body !! "errors" = None ->
  body !! "topartists" = Some (JObject topartists) ->
  topartists !! "artist" = Some (JList (good ++ JObject bad :: rest)) ->
  Forall2 (fun artist record =>
      exists (a last : gmap string json) (url name text : json) (sizes : list json) (k : N),
        artist = JObject a /\
        a !! "url" = Some url /\
        a !! "name" = Some name /\
        a !! "image" = Some (JList (sizes ++ [JObject last])) /\
        last !! "#text" = Some text /\
        a !! "playcount" = Some (JString (numeral k)) /\
        (String.length (numeral k) <= int_max_str_digits)%nat /\
        record = JObject {[ "url" := url;
                            "name" := name;
                            "image" := or_ text JNull;
                            "plays" := JInt (Z.of_N k) ]})
    good mapped ->
  bad !! "url" = Some url ->
  bad !! "name" = Some name ->
  bad !! "image" = Some (JList (sizes ++ [JObject last])) ->
  last !! "#text" = Some text ->
  (bad !! "playcount" = None ->
     result (top_artists self username period limit) = Raise KeyError) /\
  (bad !! "playcount" = Some JNull ->
     result (top_artists self username period limit) = Raise TypeError) /\
  (bad !! "playcount" = Some (JString "") ->
     result (top_artists self username period limit) = Raise ValueError).
Proof.
  intros Hget Herrors Htop Hlist Hgood Hurl Hname Himage Htext.
  assert (Hmapped : forall e,
    (url' ← (JObject bad).["url"];
     name' ← (JObject bad).["name"];
     image ← or_None (JObject bad).["image"].[#-1].["#text"];
     plays ← int_ (JObject bad).["playcount"];
     Ok (JObject {[ "url" := url'; "name" := name'; "image" := image; "plays" := plays ]}))
    = Raise e ->
    result (top_artists self username period limit) = Raise e).
  { intros e Hbad. unfold top_artists. rewrite result_await.
    rewrite (result_request_field self _ "topartists" body topartists
               ltac:(discriminate) Hget Herrors Htop
               ltac:(intros ->; rewrite lookup_empty in Hlist; discriminate)).
    unfold comprehension. py_step. rewrite Htop. py_step. rewrite Hlist. py_step.
    cbn [iter and_then].
    match goal with
    | |- and_then (mapM ?f _) _ = _ =>
        rewrite (mapM_res_app_raise f good (JObject bad) rest mapped e); [reflexivity | | exact Hbad]
    end.
    eapply Forall2_impl; [exact Hgood |].
    intros artist record
      (a & last' & url' & name' & text' & sizes' & k
       & -> & Hurl' & Hname' & Himage' & Htext' & Hplays & Hlen & ->).
    py_step. rewrite Hurl', Hname', Himage'. py_step.
    rewrite seq_index_last. py_step. rewrite Htext', Hplays. py_step.
    change (and_then (and_then (int (JString (numeral k))) (fun n => Ok (JInt n))) ?k0)
      with (and_then (int_ (Ok (JString (numeral k)))) k0).
    rewrite (int_numeral k Hlen). reflexivity. }
  repeat split; intros Hplays; apply Hmapped;
    py_step; rewrite Hurl, Hname, Himage; py_step;
    rewrite seq_index_last; py_step; rewrite Htext, Hplays; reflexivity.
Qed.

Lemma top_artist_entry name (k : N) :
  (String.length (numeral k) <= int_max_str_digits)%nat ->
  exists (a last : gmap string json) (url name' text : json) (sizes : list json) (k' : N),
    top_artist name (numeral k) = JObject a /\
    a !! "url" = Some url /\
    a !! "name" = Some name' /\
    a !! "image" = Some (JList (sizes ++ [JObject last])) /\
    last !! "#text" = Some text /\
    a !! "playcount" = Some (JString (numeral k')) /\
    (String.length (numeral k') <= int_max_str_digits)%nat /\
    artist_summary name (Z.of_N k) =
      JObject {[ "url" := url; "name" := name'; "image" := or_ text JNull;
                 "plays" := JInt (Z.of_N k') ]}.
Proof.
  intros Hlen.
  exists {[ "url" := JString ("http://last.fm/music/" +:+ name);
            "name" := JString name;
            "image" := images "";
            "playcount" := JString (numeral k) ]},
         {[ "#text" := JString ""; "size" := JString "extralarge" ]},
         (JString ("http://last.fm/music/" +:+ name)), (JString name), (JString ""),
         [JObject {[ "#text" := JString "http://img/34.png"; "size" := JString "small" ]}],
         k.
  repeat split; try reflexivity; try assumption;
    repeat first [ rewrite lookup_insert_eq; reflexivity
                 | rewrite lookup_insert_ne by discriminate
                 | rewrite lookup_singleton_eq; reflexivity ].
Qed.

Lemma top_artists_bad_playcount_witness :
  result (top_artists (canned {[ "user.getTopArtists" := uncounted_artists_body ]})
            "alice" "7day" 3) = Raise KeyError.
Proof.
  apply (top_artists_bad_playcount
           (canned {[ "user.getTopArtists" := uncounted_artists_body ]}) "alice" "7day" 3
           {[ "topartists" := JObject {[ "artist" := JList [
                top_artist "a" "123"; JObject uncounted_artist; top_artist "c" "45" ] ]} ]}
           {[ "artist" := JList [
                top_artist "a" "123"; JObject uncounted_artist; top_artist "c" "45" ] ]}
           uncounted_artist
           {[ "#text" := JString ""; "size" := JString "extralarge" ]}
           [ top_artist "a" "123" ] [ artist_summary "a" 123 ] [ top_artist "c" "45" ]
           [ JObject {[ "#text" := JString "http://img/34.png"; "size" := JString "small" ]} ]
           (JString "http://last.fm/music/b") (JString "b") (JString ""));
    try reflexivity.
  apply List.Forall2_cons; [| apply List.Forall2_nil].
  apply (top_artist_entry "a" 123%N). apply Nat.leb_le. reflexivity.
Defined.

(** ** What a mapper iterates over *)

(** Iterating a non-empty string yields its characters, and a character
    is a string: the projection raises [TypeError] on the first one. *)
Lemma comprehension_name_url_string s :
  s <> "" -> comprehension name_url (Ok (JString s)) = Raise TypeError.
Proof.
  intros Hne. unfold comprehension. cbn [and_then iter].
  destruct s as [|c s]; [contradiction |].
  cbn [list_ascii_of_string fmap list_fmap]. rewrite mapM_res_cons. reflexivity.
Qed.

(** X12: what [library_tags] makes of the [toptags.tag] member, by its
    shape.  A list of objects with [name] and [url] gives their
    projections in order; an empty object or an empty string gives the
    empty list; a non-empty single object or string raises [TypeError],
    as do [None], a boolean and a number. *)
Theorem library_tags_by_shape self username period limit response tag :
  result (request self
            {[ "method" := JString "user.getTopTags";
               "username" := JString username;
               "period" := JString period;
               "limit" := JInt limit ]}
            (Some "toptags")) = Ok response ->
  response.["toptags"].["tag"] = Ok tag ->
  (forall l records,
     tag = JList l ->
     Forall2 (fun (x record : json) =>
         exists (m : gmap string json) name url,
           x = JObject m /\ m !! "name" = Some name /\ m !! "url" = Some url /\
           record = JObject {[ "name" := name; "url" := url ]})
       l records ->
     result (library_tags self username period limit) = Ok (JList records)) /\
  (tag = JObject ∅ \/ tag = JString "" ->
     result (library_tags self username period limit) = Ok (JList [])) /\
  ((exists m : gmap string json, tag = JObject m /\ m <> ∅) \/
   (exists s, tag = JString s /\ s <> "") \/
   tag = JNull \/ (exists b, tag = JBool b) \/ (exists n, tag = JInt n) \/
   (exists f, tag = JFloat f) ->
     result (library_tags self username period limit) = Raise TypeError).
Proof.
  intros Hresponse Htag.
  unfold library_tags. rewrite result_await, Hresponse. cbn [result lift]. rewrite Htag.
  split; [| split].
  - intros l records -> Hall. unfold comprehension. cbn [and_then iter].
    assert (Hmap : mapM name_url l = Ok records); [| rewrite Hmap; reflexivity].
    apply mapM_res_Forall2. eapply Forall2_impl; [exact Hall |].
    intros x record (m & name & url & -> & Hname & Hurl & ->).
    unfold name_url. py_step. rewrite Hname, Hurl. reflexivity.
  - intros [-> | ->]; [| reflexivity].
    unfold comprehension. cbn [and_then iter]. rewrite map_to_list_empty. reflexivity.
  - intros [(m & -> & Hne) | [(s & -> & Hne) | [-> | [(b & ->) | [(n & ->) | (f & ->)]]]]];
      [ apply comprehension_name_url_object, Hne
      | apply comprehension_name_url_string, Hne
      | reflexivity .. ].
Qed.

Lemma library_tags_by_shape_witness :
  result (library_tags (canned {[ "user.getTopTags" :=
            JObject {[ "toptags" := JObject {[ "tag" := JList [rock; indie] ]} ]} ]})
            "alice" "overall" 2)
    = Ok (JList [rock; indie]) /\
  result (library_tags (canned {[ "user.getTopTags" :=
            JObject {[ "toptags" := JObject {[ "tag" := rock ]} ]} ]})
            "alice" "overall" 2)
    = Raise TypeError.
Proof.
  split.
  - eapply (library_tags_by_shape _ "alice" "overall" 2
              (JObject {[ "toptags" := JObject {[ "tag" := JList [rock; indie] ]} ]})
              (JList [rock; indie]));
      [reflexivity | reflexivity | reflexivity |].
    repeat apply List.Forall2_cons; [ .. | apply List.Forall2_nil ].
    + exists {[ "name" := JString "rock"; "url" := JString "u" ]}, (JString "rock"), (JString "u").
      repeat split; reflexivity.
    + exists {[ "name" := JString "indie"; "url" := JString "v" ]}, (JString "indie"), (JString "v").
      repeat split; reflexivity.
  - eapply (library_tags_by_shape _ "alice" "overall" 2
              (JObject {[ "toptags" := JObject {[ "tag" := rock ]} ]}) rock);
      [reflexivity | reflexivity |].
    left. exists {[ "name" := JString "rock"; "url" := JString "u" ]}.
    split; [reflexivity |].
    intros Hempty. apply (f_equal (fun m : gmap string json => m !! "name")) in Hempty.
    discriminate Hempty.
Defined.

(** ** Images of recent tracks *)

Lemma seq_index_last_inv {A} (l : list A) x :
  seq_index l (-1) = Some x -> exists sizes, l = sizes ++ [x].
Proof.
  unfold seq_index. replace (-1 <? 0)%Z with true by reflexivity.
  induction l as [|y l' _] using rev_ind; [discriminate |].
  rewrite length_app. cbn [length].
  destruct (Z.ltb_spec (-1 + Z.of_nat (length l' + 1)) 0) as [Hneg|_]; [lia |].
  rewrite (list_lookup_middle l' [] y) by lia. intros [= ->]. eauto.
Qed.

Lemma getindex_last_object_inv v (m : gmap string json) :
  getindex v (-1) = Ok (JObject m) -> exists sizes, v = JList (sizes ++ [JObject m]).
Proof.
  destruct v as [| | | |s|l|]; try discriminate; cbn [getindex].
  - destruct (seq_index (list_ascii_of_string s) (-1)); discriminate.
  - destruct (seq_index l (-1)) as [y|] eqn:Hl; [| discriminate].
    intros [= ->]. apply seq_index_last_inv in Hl as [sizes ->]. eauto.
Qed.

(** X13: in every record of [recent_tracks] the [image] member is built
    from the last entry of the track's image list, which must be an
    object: it is [{"url": text}] when that entry has a truthy [#text], and
    [None] when the [#text] is empty or missing; a missing [#text] is
    tolerated here. *)
Theorem recent_tracks_image self username limit out :
  result (recent_tracks self username limit) = Ok out ->
  exists (response : json) (raw records : list json),
    result (request self
              {[ "method" := JString "user.getRecentTracks";
                 "username" := JString username;
                 "limit" := JInt limit;
                 "autoscorrect" := JInt 1 ]}
              (Some "recenttracks")) = Ok response /\
    (v ← response.["recenttracks"].["track"]; iter v) = Ok raw /\
    out = JList records /\
    Forall2 (fun track record : json =>
        exists (t last : gmap string json) (sizes : list json),
          track = JObject t /\
          t !! "image" = Some (JList (sizes ++ [JObject last])) /\
          record.["image"] =
            Ok (match last !! "#text" with
                | Some text => if truthy text then JObject {[ "url" := text ]} else JNull
                | None => JNull
                end))
      raw records.
Proof.
  intros H. unfold recent_tracks in H.
  apply await_ok_inv in H as (response & Hresponse & H).
  cbn [result lift] in H. unfold comprehension in H.
  apply and_then_ok_inv in H as (v & Hv & H).
  apply and_then_ok_inv in H as (raw & Hraw & H).
  apply and_then_ok_inv in H as (records & Hrecords & H).
  injection H as <-.
  exists response, raw, records.
  split; [assumption |]. split; [rewrite Hv; exact Hraw |]. split; [reflexivity |].
  apply mapM_res_Forall2 in Hrecords.
  eapply Forall2_impl; [exact Hrecords |].
  intros track record H. cbn beta in H.
  apply and_then_ok_inv in H as (url & Hurl & H).
  apply and_then_ok_inv in H as (name & Hname & H).
  apply and_then_ok_inv in H as (image_text & Himage_text & H).
  apply and_then_ok_inv in H as (image & Himage & H).
  invert_statements H. injection H as <-.
  apply and_then_ok_inv in Himage_text as (last_image & Hlast & Htext).
  apply get_ok_inv in Htext as (last & -> & ->).
  unfold idx in Hlast. apply and_then_ok_inv in Hlast as (images & Himages & Hlast).
  cbn [sub ok_json and_then] in Himages.
  destruct track as [| | | | | |t]; try discriminate Himages.
  cbn [getitem] in Himages.
  destruct (t !! "image") as [images'|] eqn:Ht; [| discriminate Himages].
  injection Himages as ->.
  apply getindex_last_object_inv in Hlast as [sizes ->].
  exists t, last, sizes. split; [reflexivity |]. split; [exact Ht |].
  py_step.
  replace (({[ "url" := url; "name" := name; "image" := image; "plays" := _;
               "playing" := _; "artist" := _ ]} : gmap string json) !! "image")
    with (Some image) by reflexivity.
  cbn [and_then]. f_equal.
  cbn [sub idx ok_json and_then getitem] in Himage. rewrite Ht in Himage.
  cbn [sub idx and_then getindex] in Himage. rewrite seq_index_last in Himage.
  cbn [sub idx and_then getitem] in Himage.
  destruct (last !! "#text") as [text|]; cbn [default from_option id] in Himage.
  - destruct (truthy text); cbn [and_then] in Himage; injection Himage as <-; reflexivity.
  - cbn [truthy] in Himage. injection Himage as <-. reflexivity.
Qed.

Lemma recent_tracks_image_witness :
  exists out,
    result (recent_tracks playing_upstream "alice" 1) = Ok out /\
    exists (response : json) (raw records : list json),
      result (request playing_upstream
                {[ "method" := JString "user.getRecentTracks";
                   "username" := JString "alice";
                   "limit" := JInt 1;
                   "autoscorrect" := JInt 1 ]}
                (Some "recenttracks")) = Ok response /\
      (v ← response.["recenttracks"].["track"]; iter v) = Ok raw /\
      out = JList records /\
      Forall2 (fun track record : json =>
          exists (t last : gmap string json) (sizes : list json),
            track = JObject t /\
            t !! "image" = Some (JList (sizes ++ [JObject last])) /\
            record.["image"] =
              Ok (match last !! "#text" with
                  | Some text => if truthy text then JObject {[ "url" := text ]} else JNull
                  | None => JNull
                  end))
        raw records.
Proof.
  destruct (is_ok_inv (result (recent_tracks playing_upstream "alice" 1)) eq_refl)
    as [out Hout].
  exists out. split; [exact Hout |].
  exact (recent_tracks_image playing_upstream "alice" 1 out Hout).
Defined.

(** ** The avatar's extension *)

Lemma prefix_png_tail c s :
  String.prefix ".png" (String c (s +:+ ".png")) = String.prefix ".png" (String c (s +:+ ".pn")).
Proof.
  cbn [String.prefix]. destruct (ascii_dec "." c); [| reflexivity].
  destruct s as [|a [|b [|d s]]];
    repeat match goal with
           | |- context [String ?x ?y +:+ ?t] =>
               change (String x y +:+ t) with (String x (y +:+ t))
           | |- context [EmptyString +:+ ?t] => change (EmptyString +:+ t) with t
           end;
    cbn [String.prefix];
    repeat match goal with
           | |- context [ascii_dec ?x ?y] => destruct (ascii_dec x y)
           end; try reflexivity; try discriminate.
  destruct s; reflexivity.
Qed.

Lemma replace_from_unchanged old new s :
  substring_of old s = false -> replace_from old new 0 s = s.
Proof.
  induction s as [|c s IH]; [reflexivity |].
  cbn [substring_of replace_from]. intros H.
  apply orb_false_iff in H as [Hprefix Hrest].
  rewrite Hprefix, (IH Hrest). reflexivity.
Qed.

(** X14: the swap of the avatar's extension, [replace(".png", ".gif")].
    A URL that ends in [.png] and has no earlier [.png] ends in [.gif]
    afterwards and is otherwise the same; a URL without [.png] is left as
    it is; and an image text that is no string ([None], a number) raises
    [AttributeError]. *)
Theorem avatar_extension_swapped :
  (forall p,
     substring_of ".png" (p +:+ ".pn") = false ->
     replace (JString (p +:+ ".png")) ".png" ".gif" = Ok (JString (p +:+ ".gif"))) /\
  (forall s,
     substring_of ".png" s = false ->
     replace (JString s) ".png" ".gif" = Ok (JString s)) /\
  (forall v, (forall s, v <> JString s) -> replace v ".png" ".gif" = Raise AttributeError).
Proof.
  split; [| split].
  - intros p Hp. cbn [replace]. do 2 f_equal.
    induction p as [|c p IH]; [reflexivity |].
    change (String c p +:+ ".pn") with (String c (p +:+ ".pn")) in Hp.
    cbn [substring_of] in Hp. apply orb_false_iff in Hp as [Hprefix Hrest].
    change (String c p +:+ ".png") with (String c (p +:+ ".png")).
    change (String c p +:+ ".gif") with (String c (p +:+ ".gif")).
    cbn [replace_from].
    rewrite prefix_png_tail, Hprefix, (IH Hrest). reflexivity.
  - intros s Hs. cbn [replace]. rewrite (replace_from_unchanged _ _ _ Hs). reflexivity.
  - intros v Hv. destruct v; try reflexivity. exfalso. exact (Hv _ eq_refl).
Qed.

Lemma avatar_extension_swapped_witness :
  replace (JString "http://x/y.png") ".png" ".gif" = Ok (JString "http://x/y.gif") /\
  replace (JString "http://x/y.jpg") ".png" ".gif" = Ok (JString "http://x/y.jpg") /\
  replace JNull ".png" ".gif" = Raise AttributeError.
Proof.
  split; [| split].
  - exact (proj1 avatar_extension_swapped "http://x/y" eq_refl).
  - exact (proj1 (proj2 avatar_extension_swapped) "http://x/y.jpg" eq_refl).
  - apply (proj2 (proj2 avatar_extension_swapped)). discriminate.
Defined.

(** ** The profile *)

(** Without a required field, [request] returns any object body that has
    no [errors] key. *)
Lemma result_request_plain self req (body : gmap string json) :
  session_get self LastFMurl (params self req) = Ok (JObject body) ->
  body !! "errors" = None ->
  result (request self req None) = Ok (JObject body).
Proof.
  intros Hget Herrors. rewrite result_request, Hget. unfold check. py_step.
  rewrite Herrors, bool_decide_false by (intros [? ?]; discriminate). reflexivity.
Qed.

(** X15: on a [user.getInfo] body whose [user] object has all the members
    [profile] reads, with the counts and the age written as decimal
    numerals and a string as the last image's text, [profile] returns the
    record built from them: the counts and the age as integers, the avatar
    with [.png] replaced by [.gif], an empty real name, avatar or country
    as [None], and [pro] true exactly for the type [subscriber]. *)
Theorem profile_record self username
    (body user registered last : gmap string json) (sizes : list json)
    (url name realname reg country type : json) (text : string)
    (scrobbles artists albums tracks age : N) :
  session_get self LastFMurl
    (params self {[ "method" := JString "user.getInfo";
                    "username" := JString username ]}) = Ok (JObject body) ->
  body !! "errors" = None ->
  body !! "user" = Some (JObject user) ->
  user !! "url" = Some url ->
  user !! "name" = Some name ->
  user !! "realname" = Some realname ->
  user !! "image" = Some (JList (sizes ++ [JObject last])) ->
  last !! "#text" = Some (JString text) ->
  user !! "playcount" = Some (JString (numeral scrobbles)) ->
  user !! "artist_count" = Some (JString (numeral artists)) ->
  user !! "album_count" = Some (JString (numeral albums)) ->
  user !! "track_count" = Some (JString (numeral tracks)) ->
  user !! "registered" = Some (JObject registered) ->
  registered !! "#text" = Some reg ->
  user !! "country" = Some country ->
  user !! "age" = Some (JString (numeral age)) ->
  user !! "type" = Some type ->
  Forall (fun k => (String.length (numeral k) <= int_max_str_digits)%nat)
    [scrobbles; artists; albums; tracks; age] ->
  result (profile self username) =
  Ok (JObject {[
    "url" := url;
    "username" := name;
    "government" := or_ realname JNull;
    "avatar" := or_ (JString (replace_from ".png" ".gif" 0 text)) JNull;
    "library" := JObject {[
      "scrobbles" := JInt (Z.of_N scrobbles);
      "artists" := JInt (Z.of_N artists);
      "albums" := JInt (Z.of_N albums);
      "tracks" := JInt (Z.of_N tracks) ]};
    "meta" := JObject {[
      "registered" := reg;
      "country" := or_ country JNull;
      "age" := JInt (Z.of_N age);
      "pro" := JBool (eq_str type "subscriber") ]} ]}).
Proof.
  intros Hget Herrors Huser Hurl Hname Hrealname Himage Htext Hscrobbles Hartists
    Halbums Htracks Hregistered Hreg Hcountry Hage Htype Hlen.
  repeat match goal with
         | H : Forall _ (_ :: _) |- _ => apply Forall_cons_1 in H as [? H]
         end.
  unfold profile. rewrite result_await, (result_request_plain self _ body Hget Herrors).
  cbn [result lift].
  repeat (cbn [sub idx ok_json and_then getitem getindex or_None replace_ replace];
          rewrite ?Huser, ?Hurl, ?Hname, ?Hrealname, ?Himage, ?Htext, ?Hscrobbles,
            ?Hartists, ?Halbums, ?Htracks, ?Hregistered, ?Hreg, ?Hcountry, ?Hage, ?Htype,
            ?seq_index_last, ?int_numeral by assumption).
  reflexivity.
Qed.

Lemma profile_record_witness :
  result (profile (answering (user_body "Alice A" "")) "alice") =
  Ok (JObject {[
    "url" := JString "http://last.fm/user/alice";
    "username" := JString "alice";
    "government" := JString "Alice A";
    "avatar" := JString "http://x/y.gif";
    "library" := JObject {[
      "scrobbles" := JInt 1200;
      "artists" := JInt 30;
      "albums" := JInt 40;
      "tracks" := JInt 500 ]};
    "meta" := JObject {[
      "registered" := JInt 1262304000;
      "country" := JNull;
      "age" := JInt 0;
      "pro" := JBool true ]} ]}).
Proof.
  apply (profile_record (answering (user_body "Alice A" "")) "alice"
           {[ "user" := JObject {[
                "url" := JString "http://last.fm/user/alice";
                "name" := JString "alice";
                "realname" := JString "Alice A";
                "image" := images "http://x/y.png";
                "playcount" := JString "1200";
                "artist_count" := JString "30";
                "album_count" := JString "40";
                "track_count" := JString "500";
                "registered" := JObject {[ "#text" := JInt 1262304000;
                                           "unixtime" := JString "1262304000" ]};
                "country" := JString "";
                "age" := JString "0";
                "type" := JString "subscriber" ]} ]}
           {[ "url" := JString "http://last.fm/user/alice";
              "name" := JString "alice";
              "realname" := JString "Alice A";
              "image" := images "http://x/y.png";
              "playcount" := JString "1200";
              "artist_count" := JString "30";
              "album_count" := JString "40";
              "track_count" := JString "500";
              "registered" := JObject {[ "#text" := JInt 1262304000;
                                         "unixtime" := JString "1262304000" ]};
              "country" := JString "";
              "age" := JString "0";
              "type" := JString "subscriber" ]}
           {[ "#text" := JInt 1262304000; "unixtime" := JString "1262304000" ]}
           {[ "#text" := JString "http://x/y.png"; "size" := JString "extralarge" ]}
           [ JObject {[ "#text" := JString "http://img/34.png"; "size" := JString "small" ]} ]
           (JString "http://last.fm/user/alice") (JString "alice") (JString "Alice A")
           (JInt 1262304000) (JString "") (JString "subscriber") "http://x/y.png"
           1200%N 30%N 40%N 500%N 0%N);
    try reflexivity.
  repeat apply List.Forall_cons; try apply List.Forall_nil; apply Nat.leb_le; reflexivity.
Defined.

(** ** The service's error bodies *)

(** A missing required field, on a body without the key [errors]. *)
Lemma result_request_missing self req p (body : gmap string json) :
  p <> "" ->
  session_get self LastFMurl (params self req) = Ok (JObject body) ->
  body !! "errors" = None ->
  body !! p = None ->
  result (request self req (Some p)) = Raise (LastFMError ("Error: " +:+ p +:+ " not found")).
Proof.
  intros Hp Hget Herrors Hfield.
  rewrite result_request, Hget. unfold check. py_step.
  rewrite Herrors, bool_decide_false by (intros [? ?]; discriminate).
  rewrite (truthy_string_nonempty p Hp). py_step. rewrite Hfield. reflexivity.
Qed.

(** X16: let the session answer every request with an error body of the
    service, an object with [error] and [message] and no other key (in
    particular no [errors]).  The code of the body is never looked up:
    every method that requires a payload field raises [LastFMError] with
    the message that its field was not found, and [profile], which
    requires none, raises the [KeyError] of its first subscript.
    [now_playing] fails on its first request, which it awaits alone;
    [library] awaits its four queries together, all four fail, and the
    error it raises is that of one of the four, whichever comes first. *)
Theorem error_body_outcomes self (body : gmap string json) :
  (forall query, session_get self LastFMurl query = Ok (JObject body)) ->
  (forall k, k <> "error" -> k <> "message" -> body !! k = None) ->
  forall (username artist album track tag period : string) (limit : Z),
    result (profile self username) = Raise KeyError /\
    result (now_playing self username)
      = Raise (LastFMError "Error: recenttracks not found") /\
    result (get_artist self artist) = Raise (LastFMError "Error: artist not found") /\
    result (recent_tracks self username limit)
      = Raise (LastFMError "Error: recenttracks not found") /\
    result (get_album self username album) = Raise (LastFMError "Error: album not found") /\
    result (top_artists self username period limit)
      = Raise (LastFMError "Error: topartists not found") /\
    result (top_tracks self username period limit)
      = Raise (LastFMError "Error: toptracks not found") /\
    result (top_albums self username period limit)
      = Raise (LastFMError "Error: topalbums not found") /\
    result (get_track self username artist track)
      = Raise (LastFMError "Error: track not found") /\
    result (get_tag self tag) = Raise (LastFMError "Error: tag not found") /\
    result (library_tags self username period limit)
      = Raise (LastFMError "Error: toptags not found") /\
    (result (library self username) = Raise (LastFMError "Error: topartists not found") \/
     result (library self username) = Raise (LastFMError "Error: topalbums not found") \/
     result (library self username) = Raise (LastFMError "Error: toptracks not found") \/
     result (library self username) = Raise (LastFMError "Error: toptags not found")).
Proof.
  intros Hget Hkeys username artist album track tag period limit.
  assert (Hmissing : forall req p,
    p <> "" -> p <> "error" -> p <> "message" ->
    result (request self req (Some p)) = Raise (LastFMError ("Error: " +:+ p +:+ " not found"))).
  { intros req p Hp Herror Hmessage.
    apply (result_request_missing self req p body Hp (Hget _)); apply Hkeys; congruence. }
  split.
  { unfold profile.
    rewrite result_await, (result_request_plain self _ body (Hget _))
      by (apply Hkeys; discriminate).
    cbn [result lift]. py_step. rewrite (Hkeys "user") by discriminate. reflexivity. }
  repeat split;
    try (unfold now_playing, get_artist, recent_tracks, get_album, top_artists,
           top_tracks, top_albums, get_track, get_tag, library_tags;
         rewrite result_await, Hmissing by discriminate; reflexivity).
  unfold library. cbn [app]. rewrite result_await.
  destruct (result (gather self _)) as [values|e] eqn:Hresults.
  - apply result_gather_ok in Hresults. rewrite mapM_res_cons in Hresults.
    unfold library_artists at 1 in Hresults.
    rewrite result_await, Hmissing in Hresults by discriminate. discriminate Hresults.
  - apply result_gather_raise in Hresults as (task & Hin & Htask).
    repeat (apply elem_of_cons in Hin as [-> | Hin]);
      [| | | | apply elem_of_nil in Hin; contradiction];
      unfold library_artists, library_albums, library_tracks, library_tags in Htask;
      rewrite result_await, Hmissing in Htask by discriminate;
      injection Htask as <-; auto.
Qed.

Lemma error_body_outcomes_witness :
  result (profile (answering (JObject error_body)) "nobody") = Raise KeyError /\
  result (get_artist (answering (JObject error_body)) "nobody")
    = Raise (LastFMError "Error: artist not found").
Proof.
  assert (Hkeys : forall k, k <> "error" -> k <> "message" -> error_body !! k = None).
  { intros k Herror Hmessage. unfold error_body.
    rewrite lookup_insert_ne by congruence. apply lookup_singleton_ne. congruence. }
  destruct (error_body_outcomes (answering (JObject error_body)) error_body
              (fun _ => eq_refl) Hkeys "nobody" "nobody" "lp" "song" "rock" "overall" 10)
    as (Hprofile & _ & Hartist & _).
  split; assumption.
Defined.

(** Which of the four errors [library] raises on that body follows the
    timing: the first query's when its answer is the first to arrive, the
    last query's when that one is. *)
Lemma library_error_follows_timing :
  result (library (answering (JObject error_body)) "nobody")
    = Raise (LastFMError "Error: topartists not found") /\
  result (library (racing (fun _ => 3%nat) (answering (JObject error_body))) "nobody")
    = Raise (LastFMError "Error: toptags not found").
Proof. split; vm_compute; reflexivity. Qed.

(** ** Albums and tracks *)

Lemma getitem_ok_inv v k x :
  getitem v k = Ok x -> exists m : gmap string json, v = JObject m /\ m !! k = Some x.
Proof.
  destruct v as [| | | | | |m]; try discriminate. cbn [getitem].
  destruct (m !! k) as [y|] eqn:Hk; [| discriminate]. intros [= ->]. eauto.
Qed.

(** X17: [get_album] needs an integer duration on every track of the
    album: if one track of the list has no [duration], or [None] for it,
    the call raises and no album record is returned. *)
Theorem get_album_needs_durations self username album response
    (tracks : list json) (t : gmap string json) :
  result (request self
            {[ "method" := JString "album.getInfo";
               "username" := JString username;
               "album" := JString album ]}
            (Some "album")) = Ok response ->
  response.["album"].["tracks"].["track"] = Ok (JList tracks) ->
  JObject t ∈ tracks ->
  t !! "duration" = None \/ t !! "duration" = Some JNull ->
  exists e, result (get_album self username album) = Raise e.
Proof.
  intros Hresponse Htracks Hin Hduration.
  destruct (result (get_album self username album)) as [out|e] eqn:H; [| eauto].
  exfalso. unfold get_album in H.
  apply await_ok_inv in H as (response' & Hresponse' & H).
  rewrite Hresponse in Hresponse'. injection Hresponse' as <-.
  cbn [result lift] in H. invert_statements H.
  match goal with
  | E : comprehension _ (sub (sub (sub _ "album") "tracks") "track") = Ok _ |- _ =>
      rewrite Htracks in E; apply comprehension_list_inv in E as (records & _ & Hall)
  end.
  apply list_elem_of_lookup in Hin as [i Hi].
  destruct (Forall2_lookup_l _ _ _ _ _ Hall Hi) as (record & _ & Hrecord).
  cbn beta in Hrecord. invert_statements Hrecord.
  match goal with
  | E : int_ (sub _ "duration") = Ok _ |- _ =>
      cbn [int_ sub ok_json and_then getitem] in E;
      destruct Hduration as [Hd | Hd]; rewrite Hd in E; discriminate E
  end.
Qed.

(** X18: [get_track] never returns a track without its album: whenever it
    returns, the [track] object of the answer had an [album] object with
    [url] and [name], and these two make up the [album] of the record. *)
Theorem get_track_requires_album self username artist track out :
  result (get_track self username artist track) = Ok out ->
  exists (response : json) (tr album : gmap string json) (url name : json),
    result (request self
              {[ "method" := JString "track.getInfo";
                 "username" := JString username;
                 "artist" := JString artist;
                 "track" := JString track ]}
              (Some "track")) = Ok response /\
    response.["track"] = Ok (JObject tr) /\
    tr !! "album" = Some (JObject album) /\
    album !! "url" = Some url /\
    album !! "name" = Some name /\
    out.["album"] = Ok (JObject {[ "url" := url; "name" := name ]}).
Proof.
  intros H. unfold get_track in H.
  apply await_ok_inv in H as (response & Hresponse & H).
  cbn [result lift] in H. invert_statements H. injection H as <-.
  match goal with
  | Eurl : sub (sub (sub _ "track") "album") "url" = Ok ?url,
    Ename : sub (sub (sub _ "track") "album") "name" = Ok ?name |- _ =>
      apply sub_ok_inv in Eurl as (album_value & Halbum & Hurl);
      rewrite Halbum in Ename;
      apply sub_ok_inv in Halbum as (track_value & Htrack & Halbum);
      cbn [sub ok_json and_then] in Hurl, Ename, Halbum;
      apply getitem_ok_inv in Hurl as (album & -> & Hurl);
      apply getitem_ok_inv in Halbum as (tr & -> & Halbum);
      cbn [getitem] in Ename;
      destruct (album !! "name") as [name'|] eqn:Hname; [| discriminate Ename];
      injection Ename as ->;
      exists response, tr, album, url, name
  end.
  repeat split; assumption.
Qed.

Lemma get_album_needs_durations_witness :
  exists e, result (get_album untimed_album_upstream "band" "lp") = Raise e.
Proof.
  apply (get_album_needs_durations untimed_album_upstream "band" "lp"
           (album_body (JObject {[ "track" := JList [JObject untimed_track] ]}))
           [JObject untimed_track] untimed_track).
  - reflexivity.
  - reflexivity.
  - apply list_elem_of_here.
  - right. reflexivity.
Defined.

Lemma get_track_requires_album_witness :
  exists out,
    result (get_track track_info_upstream "alice" "band" "song") = Ok out /\
    exists (response : json) (tr album : gmap string json) (url name : json),
      result (request track_info_upstream
                {[ "method" := JString "track.getInfo";
                   "username" := JString "alice";
                   "artist" := JString "band";
                   "track" := JString "song" ]}
                (Some "track")) = Ok response /\
      response.["track"] = Ok (JObject tr) /\
      tr !! "album" = Some (JObject album) /\
      album !! "url" = Some url /\
      album !! "name" = Some name /\
      out.["album"] = Ok (JObject {[ "url" := url; "name" := name ]}).
Proof.
  destruct (is_ok_inv (result (get_track track_info_upstream "alice" "band" "song")) eq_refl)
    as [out Hout].
  exists out. split; [exact Hout |].
  exact (get_track_requires_album track_info_upstream "alice" "band" "song" out Hout).
Defined.

(** ** One request per method *)

(** X19: each method other than [now_playing] and [library] sends exactly
    one GET, however the call ends: no second request follows a failure.
    The [method] parameter names the service method, and [recent_tracks]
    passes its limit together with the parameter [autoscorrect]. *)
Theorem single_request_methods self (username artist album track tag period : string)
    (limit : Z) :
  let one (m : io json) (name : string) :=
    exists query,
      sent m = [(LastFMurl, query)] /\ query !! "method" = Some (JString name) in
  one (profile self username) "user.getInfo" /\
  one (get_artist self artist) "artist.getInfo" /\
  (exists query,
     sent (recent_tracks self username limit) = [(LastFMurl, query)] /\
     query !! "method" = Some (JString "user.getRecentTracks") /\
     query !! "limit" = Some (JInt limit) /\
     query !! "autoscorrect" = Some (JInt 1) /\
     query !! "autocorrect" = None /\
     query !! "extended" = None) /\
  one (get_album self username album) "album.getInfo" /\
  one (top_artists self username period limit) "user.getTopArtists" /\
  one (top_tracks self username period limit) "user.getTopTracks" /\
  one (top_albums self username period limit) "user.getTopAlbums" /\
  one (get_track self username artist track) "track.getInfo" /\
  one (get_tag self tag) "tag.getInfo" /\
  one (library_artists self username period limit) "user.getTopArtists" /\
  one (library_tracks self username period limit) "user.getTopTracks" /\
  one (library_albums self username period limit) "user.getTopAlbums" /\
  one (library_tags self username period limit) "user.getTopTags".
Proof.
  cbv zeta.
  repeat split;
    (eexists; split;
     [ unfold profile, get_artist, recent_tracks, get_album, top_artists, top_tracks,
         top_albums, get_track, get_tag, library_artists, library_tracks, library_albums,
         library_tags;
       apply sent_await_request_lift
     | unfold params; repeat split;
       first [ apply lookup_union_Some_l; reflexivity
             | rewrite lookup_union_r by reflexivity; reflexivity ] ]).
Qed.

(** ** Records of the lookups *)

(** The projection to name and url, over a list of objects that have both. *)
Lemma comprehension_name_url_list (l records : list json) :
  Forall2 (fun (x record : json) =>
      exists (m : gmap string json) name url,
        x = JObject m /\ m !! "name" = Some name /\ m !! "url" = Some url /\
        record = JObject {[ "name" := name; "url" := url ]})
    l records ->
  comprehension name_url (Ok (JList l)) = Ok (JList records).
Proof.
  intros Hall. unfold comprehension. cbn [and_then iter].
  assert (Hmap : mapM name_url l = Ok records); [| rewrite Hmap; reflexivity].
  apply mapM_res_Forall2. eapply Forall2_impl; [exact Hall |].
  intros x record (m & name & url & -> & Hname & Hurl & ->).
  unfold name_url. py_step. rewrite Hname, Hurl. reflexivity.
Qed.

(** X20: on a [tag.getInfo] body whose [tag] object has all the members
    [get_tag] reads, with [reach] and [total] written as decimal numerals
    and the three top lists given as arrays of objects with [name] and
    [url], [get_tag] returns the record built from them: the two counts as
    integers, the last image's text ([None] if empty) and the three lists
    projected to name and url, in order. *)
Theorem get_tag_record self tag
    (body t wiki last top_artists top_albums top_tracks : gmap string json)
    (sizes artists albums tracks artist_records album_records track_records : list json)
    (url name content text : json) (reach total : N) :
  session_get self LastFMurl
    (params self {[ "method" := JString "tag.getInfo"; "tag" := JString tag ]})
    = Ok (JObject body) ->
  body !! "errors" = None ->
  body !! "tag" = Some (JObject t) ->
  t !! "url" = Some url ->
  t !! "name" = Some name ->
  t !! "wiki" = Some (JObject wiki) ->
  wiki !! "content" = Some content ->
  t !! "image" = Some (JList (sizes ++ [JObject last])) ->
  last !! "#text" = Some text ->
  t !! "reach" = Some (JString (numeral reach)) ->
  t !! "total" = Some (JString (numeral total)) ->
  (String.length (numeral reach) <= int_max_str_digits)%nat ->
  (String.length (numeral total) <= int_max_str_digits)%nat ->
  t !! "topartists" = Some (JObject top_artists) ->
  top_artists !! "artist" = Some (JList artists) ->
  t !! "topalbums" = Some (JObject top_albums) ->
  top_albums !! "album" = Some (JList albums) ->
  t !! "toptracks" = Some (JObject top_tracks) ->
  top_tracks !! "track" = Some (JList tracks) ->
  Forall2 (fun (x record : json) =>
      exists (m : gmap string json) name url,
        x = JObject m /\ m !! "name" = Some name /\ m !! "url" = Some url /\
        record = JObject {[ "name" := name; "url" := url ]})
    artists artist_records ->
  Forall2 (fun (x record : json) =>
      exists (m : gmap string json) name url,
        x = JObject m /\ m !! "name" = Some name /\ m !! "url" = Some url /\
        record = JObject {[ "name" := name; "url" := url ]})
    albums album_records ->
  Forall2 (fun (x record : json) =>
      exists (m : gmap string json) name url,
        x = JObject m /\ m !! "name" = Some name /\ m !! "url" = Some url /\
        record = JObject {[ "name" := name; "url" := url ]})
    tracks track_records ->
  result (get_tag self tag) =
  Ok (JObject {[
    "url" := url;
    "name" := name;
    "wiki" := content;
    "image" := or_ text JNull;
    "reach" := JInt (Z.of_N reach);
    "total" := JInt (Z.of_N total);
    "top_artists" := JList artist_records;
    "top_albums" := JList album_records;
    "top_tracks" := JList track_records ]}).
Proof.
  intros Hget Herrors Htag Hurl Hname Hwiki Hcontent Himage Htext Hreach Htotal
    Hreach_len Htotal_len Hta Hartists Htal Halbums Htt Htracks
    Hartist_records Halbum_records Htrack_records.
  unfold get_tag. rewrite result_await.
  rewrite (result_request_field self _ "tag" body t
             ltac:(discriminate) Hget Herrors Htag
             ltac:(intros ->; rewrite lookup_empty in Hurl; discriminate)).
  cbn [result lift].
  repeat (cbn [sub idx ok_json and_then getitem getindex or_None];
          rewrite ?Htag, ?Hurl, ?Hname, ?Hwiki, ?Hcontent, ?Himage, ?Htext, ?Hreach,
            ?Htotal, ?Hta, ?Hartists, ?Htal, ?Halbums, ?Htt, ?Htracks,
            ?seq_index_last, ?int_numeral by assumption).
  rewrite (comprehension_name_url_list artists artist_records Hartist_records).
  rewrite (comprehension_name_url_list albums album_records Halbum_records).
  rewrite (comprehension_name_url_list tracks track_records Htrack_records).
  reflexivity.
Qed.

Lemma get_tag_record_witness :
  result (get_tag tag_info_upstream "rock") =
  Ok (JObject {[
    "url" := JString "http://last.fm/tag/rock";
    "name" := JString "rock";
    "wiki" := JString "Rock music.";
    "image" := JNull;
    "reach" := JInt 395000;
    "total" := JInt 4000000;
    "top_artists" := JList [rock; indie];
    "top_albums" := JList [indie];
    "top_tracks" := JList [] ]}).
Proof.
  eapply (get_tag_record tag_info_upstream "rock")
    with (sizes := [JObject {[ "#text" := JString "http://img/34.png";
                               "size" := JString "small" ]}])
         (text := JString "") (reach := 395000%N) (total := 4000000%N)
         (artists := [rock; indie]) (albums := [indie]) (tracks := []);
    try reflexivity;
    try (apply Nat.leb_le; reflexivity);
    repeat (apply List.Forall2_cons; [eexists _, _, _; repeat split; reflexivity |]);
    apply List.Forall2_nil.
Defined.

(** ** Images and counts of the returned records *)

Lemma or_None_ok_inv r v : or_None r = Ok v -> v = JNull \/ truthy v = true.
Proof.
  unfold or_None, or_. intros H. apply and_then_ok_inv in H as (x & _ & H).
  destruct (truthy x) eqn:Hx; injection H as <-; auto.
Qed.

Lemma int__ok_inv r v : int_ r = Ok v -> exists n, v = JInt n.
Proof.
  unfold int_. intros H. apply and_then_ok_inv in H as (x & _ & H).
  apply and_then_ok_inv in H as (n & _ & H). injection H as <-. eauto.
Qed.

(** The members of a record built by one of the mappers, once the
    statements that computed them are known. *)
Ltac record_members :=
  repeat match goal with
         | E : or_None _ = Ok _ |- _ => apply or_None_ok_inv in E
         | E : int_ _ = Ok _ |- _ => apply int__ok_inv in E as [? ->]
         end;
  repeat match goal with
         | |- _ /\ _ => split
         | |- exists _, _ /\ _ => eexists; split; [reflexivity | assumption]
         | |- exists _, _ = _ => eexists; reflexivity
         end.

(** X21: whatever the service answered, a record that comes back from
    [get_artist], [get_album], [get_track], [get_tag] or as an entry of
    [top_artists], [top_tracks], [top_albums] has an [image] that is
    [None] or truthy, so never the empty string, and has an integer under
    each of its counts ([plays], [listeners], [playcount], [reach],
    [total]), never the string the service sent. *)
Theorem records_images_and_counts self :
  let image_ok (record : json) :=
    exists image, record.["image"] = Ok image /\ (image = JNull \/ truthy image = true) in
  let count_ok (k : string) (record : json) := exists n, record.[k] = Ok (JInt n) in
  (forall artist out,
     result (get_artist self artist) = Ok out ->
     image_ok out /\ count_ok "plays" out /\ count_ok "listeners" out /\
     count_ok "playcount" out) /\
  (forall username album out,
     result (get_album self username album) = Ok out -> image_ok out /\ count_ok "plays" out) /\
  (forall username artist track out,
     result (get_track self username artist track) = Ok out ->
     image_ok out /\ count_ok "plays" out) /\
  (forall tag out,
     result (get_tag self tag) = Ok out ->
     image_ok out /\ count_ok "reach" out /\ count_ok "total" out) /\
  (forall username period limit out,
     result (top_artists self username period limit) = Ok out \/
     result (top_tracks self username period limit) = Ok out \/
     result (top_albums self username period limit) = Ok out ->
     exists records,
       out = JList records /\
       Forall (fun record => image_ok record /\ count_ok "plays" record) records).
Proof.
  intros image_ok count_ok. subst image_ok count_ok. cbn beta.
  assert (Hlist : forall (f : json -> res json) r out,
             (forall x record, f x = Ok record ->
                (exists image, record.["image"] = Ok image /\
                               (image = JNull \/ truthy image = true)) /\
                (exists n, record.["plays"] = Ok (JInt n))) ->
             comprehension f r = Ok out ->
             exists records,
               out = JList records /\
               Forall (fun record : json =>
                   (exists image, record.["image"] = Ok image /\
                                  (image = JNull \/ truthy image = true)) /\
                   (exists n, record.["plays"] = Ok (JInt n))) records).
  { intros f r out Hf H. unfold comprehension in H.
    apply and_then_ok_inv in H as (v & _ & H).
    apply and_then_ok_inv in H as (l & _ & H).
    apply and_then_ok_inv in H as (records & Hrecords & H).
    injection H as <-. exists records. split; [reflexivity |].
    apply mapM_res_Forall2 in Hrecords.
    clear -Hrecords Hf. induction Hrecords; constructor; eauto. }
  split; [| split; [| split; [| split]]].
  - intros artist out H. unfold get_artist in H.
    apply await_ok_inv in H as (response & _ & H).
    cbn [result lift] in H. invert_statements H. injection H as <-. record_members.
  - intros username album out H. unfold get_album in H.
    apply await_ok_inv in H as (response & _ & H).
    cbn [result lift] in H. invert_statements H. injection H as <-. record_members.
  - intros username artist track out H. unfold get_track in H.
    apply await_ok_inv in H as (response & _ & H).
    cbn [result lift] in H. invert_statements H. injection H as <-. record_members.
  - intros tag out H. unfold get_tag in H.
    apply await_ok_inv in H as (response & _ & H).
    cbn [result lift] in H. invert_statements H. injection H as <-. record_members.
  - intros username period limit out [H | [H | H]];
      [unfold top_artists in H | unfold top_tracks in H | unfold top_albums in H];
      apply await_ok_inv in H as (response & _ & H);
      cbn [result lift] in H;
      (eapply Hlist; [| exact H]);
      intros x record Hrecord; cbn beta in Hrecord;
      invert_statements Hrecord; injection Hrecord as <-; record_members.
Qed.

Lemma records_images_and_counts_witness :
  exists out,
    result (get_tag tag_info_upstream "rock") = Ok out /\
    (exists image, out.["image"] = Ok image /\ (image = JNull \/ truthy image = true)) /\
    (exists n, out.["reach"] = Ok (JInt n)) /\
    (exists n, out.["total"] = Ok (JInt n)).
Proof.
  destruct (is_ok_inv (result (get_tag tag_info_upstream "rock")) eq_refl) as [out Hout].
  exists out. split; [exact Hout |].
  exact (proj1 (proj2 (proj2 (proj2 (records_images_and_counts tag_info_upstream))))
           "rock" out Hout).
Defined.

(** ** The two definitions of [get_album] *)

(** X22: the class body defines [get_album] twice.  The two definitions
    build their result from the answer in the same way: whenever
    [request] ends on the query of the first (by [artist]) as it ends on
    the query of the second (by [username]), both definitions return the
    same record or raise the same error. *)
Theorem get_album_definitions_map_alike self artist username album :
  result (request self
            {[ "method" := JString "album.getInfo";
               "artist" := JString artist;
               "album" := JString album ]}
            (Some "album")) =
  result (request self
            {[ "method" := JString "album.getInfo";
               "username" := JString username;
               "album" := JString album ]}
            (Some "album")) ->
  result (get_album_first self artist album) = result (get_album self username album).
Proof.
  intros Hsame. unfold get_album_first, get_album.
  rewrite !result_await, Hsame. reflexivity.
Qed.

Lemma get_album_definitions_map_alike_witness :
  result (get_album_first scrobbled_upstream "band" "lp") =
  result (get_album scrobbled_upstream "alice" "lp").
Proof.
  apply (get_album_definitions_map_alike scrobbled_upstream "band" "alice" "lp").
  reflexivity.
Defined.

(** ** The mapped error *)

(** X23: when the error test of [request] fires (the decoded body is an
    object with the key [errors]) and the [error] member of the body is a
    code of the table, [request] raises [LastFMError] with the text
    [Error: ] followed by the table's message for that very code,
    whatever field is required. *)
Theorem request_mapped_error_message self req paramater (body : gmap string json) code msg :
  LASTFM_ERRORS !! code = Some msg ->
  session_get self LastFMurl (params self req) = Ok (JObject body) ->
  is_Some (body !! "errors") ->
  body !! "error" = Some (JInt code) ->
  result (request self req paramater) = Raise (LastFMError ("Error: " +:+ msg)).
Proof.
  intros Hmsg Hget Herrors Hcode.
  rewrite result_request, Hget. unfold check. py_step.
  rewrite bool_decide_true by assumption. py_step.
  rewrite Hcode. py_step. rewrite Hmsg. reflexivity.
Qed.

Lemma request_mapped_error_message_witness :
  result (request (answering (JObject {[ "errors" := JBool true; "error" := JInt 29 ]}))
            ∅ (Some "user"))
  = Raise (LastFMError "Error: Rate limit exceeded").
Proof.
  apply (request_mapped_error_message
           (answering (JObject {[ "errors" := JBool true; "error" := JInt 29 ]}))
           ∅ (Some "user") {[ "errors" := JBool true; "error" := JInt 29 ]} 29%Z
           "Rate limit exceeded").
  - vm_compute. reflexivity.
  - reflexivity.
  - vm_compute. eauto.
  - vm_compute. reflexivity.
Defined.
